(** * StatisticsTable: the transaction analytics of church-account-bliss

    A shallow embedding of [src/components/StatisticsTable.tsx]: the
    time-range switch, the filter pipeline [filteredTransactions], the
    per-currency [totals], the [availableDepartments] list and the click
    handlers of the in-place department editor.

    Conventions of the embedding.
    - A JavaScript string is a [string]; its characters are read as code
      units below 256.  A value of type [string | undefined] is an
      [option string], [None] being [undefined].
    - A JavaScript array is a cell of a store, addressed by a location:
      [Array.prototype.filter] allocates a new cell, [Array.prototype.sort]
      rewrites the cell it is called on and returns the same location.
    - A [Date] is given by its local calendar fields; the zone offset is
      taken constant, so that comparing local time values is comparing
      instants.  The functions of date-fns and the time arithmetic of
      ECMAScript are embedded from their definitions.
    - [amount] lives in an arbitrary numeric domain with a zero and an
      addition; no law of arithmetic is assumed of it. *)

From Stdlib Require Import ZArith Lia Bool List String Ascii Permutation Sorted.
From stdpp Require Import gmap strings list.

Local Open Scope string_scope.
Local Open Scope list_scope.
Local Open Scope Z_scope.

(** ** JavaScript strings *)

Module JS.

(** ECMAScript WhiteSpace and LineTerminator code units below 256:
    TAB, LF, VT, FF, CR, SP and NBSP. *)
Definition isWhiteSpace (a : ascii) : bool :=
  match nat_of_ascii a with
  | 9%nat | 10%nat | 11%nat | 12%nat | 13%nat | 32%nat | 160%nat => true
  | _ => false
  end.

Fixpoint trimStart (s : string) : string :=
  match s with
  | EmptyString => EmptyString
  | String a s' => if isWhiteSpace a then trimStart s' else s
  end.

Fixpoint trimEnd (s : string) : string :=
  match s with
  | EmptyString => EmptyString
  | String a s' =>
      match trimEnd s' with
      | EmptyString => if isWhiteSpace a then EmptyString else String a EmptyString
      | r => String a r
      end
  end.

(** [String.prototype.trim]. *)
Definition trim (s : string) : string := trimEnd (trimStart s).

(** ToBoolean on a string: only the empty string is falsy. *)
Definition truthy (s : string) : bool :=
  match s with
  | EmptyString => false
  | String _ _ => true
  end.

(** [a || b] where [a : string | undefined]: the left operand when it is
    truthy, the right operand otherwise. *)
Definition or {A : Type} (inj : string -> A) (a : option string) (b : A) : A :=
  match a with
  | Some s => if truthy s then inj s else b
  | None => b
  end.

(** [!!a] where [a : string | undefined]. *)
Definition toBoolean (a : option string) : bool :=
  match a with
  | Some s => truthy s
  | None => false
  end.

(** [a === s] where [a : string | undefined] and [s : string]. *)
Definition strictEq (a : option string) (s : string) : bool :=
  match a with
  | Some x => String.eqb x s
  | None => false
  end.

End JS.

(** ** Dates: ECMAScript time values and date-fns *)

Module DateFns.

(** A [Date] by its local fields: [getFullYear], [getMonth] (0 to 11),
    [getDate] (1 to 31) and the milliseconds elapsed within the day. *)
Record Date := mkDate {
  getFullYear : Z;
  getMonth : Z;
  getDate : Z;
  msWithinDay : Z
}.

Definition msPerDay : Z := 86400000.

Definition isLeapYear (y : Z) : bool :=
  (y mod 4 =? 0) && (negb (y mod 100 =? 0) || (y mod 400 =? 0)).

Definition getDaysInMonth (y m : Z) : Z :=
  match m with
  | 0 => 31
  | 1 => if isLeapYear y then 29 else 28
  | 2 => 31
  | 3 => 30
  | 4 => 31
  | 5 => 30
  | 6 => 31
  | 7 => 31
  | 8 => 30
  | 9 => 31
  | 10 => 30
  | _ => 31
  end.

(** ECMAScript [DayFromYear]: the day number of 1 January of year [y]. *)
Definition DayFromYear (y : Z) : Z :=
  365 * (y - 1970) + (y - 1969) / 4 - (y - 1901) / 100 + (y - 1601) / 400.

(** Days of year [y] that precede the first day of month [m]. *)
Definition daysBeforeMonth (y m : Z) : Z :=
  let leap := if isLeapYear y then 1 else 0 in
  match m with
  | 0 => 0
  | 1 => 31
  | 2 => 59 + leap
  | 3 => 90 + leap
  | 4 => 120 + leap
  | 5 => 151 + leap
  | 6 => 181 + leap
  | 7 => 212 + leap
  | 8 => 243 + leap
  | 9 => 273 + leap
  | 10 => 304 + leap
  | _ => 334 + leap
  end.

(** ECMAScript [MakeDay] on in-range fields. *)
Definition MakeDay (y m d : Z) : Z :=
  DayFromYear y + daysBeforeMonth y m + (d - 1).

(** [Date.prototype.getTime], as a local time value ([MakeDate]). *)
Definition getTime (d : Date) : Z :=
  MakeDay (getFullYear d) (getMonth d) (getDate d) * msPerDay + msWithinDay d.

(** The field ranges every [Date] object satisfies. *)
Definition validDate (d : Date) : Prop :=
  0 <= getMonth d < 12 /\
  1 <= getDate d <= getDaysInMonth (getFullYear d) (getMonth d) /\
  0 <= msWithinDay d < msPerDay.

(** [startOfMonth]: [setDate(1); setHours(0, 0, 0, 0)]. *)
Definition startOfMonth (d : Date) : Date :=
  mkDate (getFullYear d) (getMonth d) 1 0.

(** [endOfMonth]: [setFullYear(year, month + 1, 0);
    setHours(23, 59, 59, 999)], the last day of the month. *)
Definition endOfMonth (d : Date) : Date :=
  mkDate (getFullYear d) (getMonth d)
         (getDaysInMonth (getFullYear d) (getMonth d)) (msPerDay - 1).

(** [startOfYear]: 1 January, 00:00:00.000. *)
Definition startOfYear (d : Date) : Date :=
  mkDate (getFullYear d) 0 1 0.

(** [endOfYear]: [setFullYear(year + 1, 0, 0); setHours(23, 59, 59, 999)],
    31 December. *)
Definition endOfYear (d : Date) : Date :=
  mkDate (getFullYear d) 11 31 (msPerDay - 1).

(** [addMonths]: move to the desired month, keeping the time of day; the
    day of the month is kept unless the desired month is shorter, in which
    case the last day of that month is taken. *)
Definition addMonths (d : Date) (amount : Z) : Date :=
  if amount =? 0 then d
  else
    let total := getMonth d + amount in
    let y := getFullYear d + total / 12 in
    let m := total mod 12 in
    let daysInMonth := getDaysInMonth y m in
    if getDate d >=? daysInMonth
    then mkDate y m daysInMonth (msWithinDay d)
    else mkDate y m (getDate d) (msWithinDay d).

(** [subMonths(date, amount) = addMonths(date, -amount)]. *)
Definition subMonths (d : Date) (amount : Z) : Date := addMonths d (- amount).

(** [isWithinInterval(date, {start, end})] on the time value of [date]:
    the two ends are put in order, then both bounds are inclusive. *)
Definition isWithinInterval (time : Z) (start end_ : Date) : bool :=
  let startTime := Z.min (getTime start) (getTime end_) in
  let endTime := Z.max (getTime start) (getTime end_) in
  (time >=? startTime) && (time <=? endTime).

End DateFns.

Import DateFns.

(** ** Data model *)

(** The numeric domain of [amount]: what [0] and [+=] of [totals] need. *)
Class Number (num : Type) := {
  zero : num;
  add : num -> num -> num
}.

#[export] Instance Z_Number : Number Z := {| zero := 0; add := Z.add |}.

Inductive TransactionType := Income | Expense.

(** [Transaction] of [@/types/transaction], by the fields the component
    reads.  [date] is the time value of [new Date(t.date)], a valid date.
    [type] is ['income'] or ['expense']. *)
Record Transaction (num : Type) := mkTransaction {
  id : string;
  type : TransactionType;
  amount : num;
  currency : string;
  category : string;
  departmentName : option string;
  date : Z;
  description : option string
}.

Arguments mkTransaction {num}.
Arguments id {num}.
Arguments type {num}.
Arguments amount {num}.
Arguments currency {num}.
Arguments category {num}.
Arguments departmentName {num}.
Arguments date {num}.
Arguments description {num}.

(** ** The store of arrays *)

Definition loc := nat.

Abbreviation Store num := (gmap nat (list (Transaction num))).

(** A computation over the store. *)
Definition M (num A : Type) : Type := Store num -> A * Store num.

Definition ret {num A : Type} (a : A) : M num A := fun h => (a, h).

Definition bind {num A B : Type} (m : M num A) (k : A -> M num B) : M num B :=
  fun h => let '(a, h') := m h in k a h'.

Notation "x <- m ;; k" := (bind m (fun x => k))
  (at level 100, m at next level, right associativity).

(** The elements of the array at [r]. *)
Definition elementsOf {num : Type} (h : Store num) (r : loc) : list (Transaction num) :=
  h !!! r.

(** [arr.filter(p)]: a new array holding the elements of [arr] that
    satisfy [p], in their order; [arr] is left as it is. *)
Definition Array_filter {num : Type} (p : Transaction num -> bool) (r : loc)
  : M num loc :=
  fun h =>
    let r' := fresh (dom h) in
    (r', <[r' := List.filter p (elementsOf h r)]> h).

(** Stable insertion by a comparator [compareFn a b] whose negative result
    puts [a] first and whose zero keeps the order of arrival. *)
Fixpoint insertSorted {A : Type} (compareFn : A -> A -> Z) (x : A) (l : list A)
  : list A :=
  match l with
  | [] => [x]
  | y :: l' =>
      if compareFn x y <=? 0 then x :: y :: l'
      else y :: insertSorted compareFn x l'
  end.

(** The order [Array.prototype.sort] produces for a consistent comparator:
    the sort is stable (ECMAScript 2019), which fixes its result. *)
Definition sortWith {A : Type} (compareFn : A -> A -> Z) (l : list A) : list A :=
  foldr (insertSorted compareFn) [] l.

(** [arr.sort(compareFn)]: sorts [arr] in place and returns [arr]. *)
Definition Array_sort {num : Type}
  (compareFn : Transaction num -> Transaction num -> Z) (r : loc) : M num loc :=
  fun h => (r, <[r := sortWith compareFn (elementsOf h r)]> h).

(** ** The component *)

(** [StatisticsTableProps].  The body of the component reads
    [getCategoryDepartment], [updateTransaction] and [updateCategory]; the
    parameter pattern of the component names [transactions],
    [getCategoryName] and [onDelete] only, and the three are read here as
    the optional properties the interface declares under these names.  Of
    an optional callback whose calls are recorded in a trace, only the
    presence is kept. *)
Record StatisticsTableProps := mkProps {
  transactions : loc;
  getCategoryName : string -> string;
  getCategoryDepartment : option (string -> option string);
  updateTransaction : bool;
  updateCategory : bool;
  onDelete : bool
}.

Section Component.

Context {num : Type} {numOps : Number num}.

Abbreviation Tx := (Transaction num).

Variable props : StatisticsTableProps.

(** The [switch (timeRange)] of [filteredTransactions]: the pair
    [(startDate, endDate)], [None] being [null]. *)
Definition timeRangeBounds (timeRange : string) (now : Date)
  : option Date * option Date :=
  if String.eqb timeRange "thisMonth" then
    (Some (startOfMonth now), Some (endOfMonth now))
  else if String.eqb timeRange "lastMonth" then
    (Some (startOfMonth (subMonths now 1)), Some (endOfMonth (subMonths now 1)))
  else if String.eqb timeRange "last3Months" then
    (Some (startOfMonth (subMonths now 2)), Some (endOfMonth now))
  else if String.eqb timeRange "last6Months" then
    (Some (startOfMonth (subMonths now 5)), Some (endOfMonth now))
  else if String.eqb timeRange "thisYear" then
    (Some (startOfYear now), Some (endOfYear now))
  else
    (None, None).

(** [getCategoryDepartment ? getCategoryDepartment(id) : undefined]. *)
Definition categoryDepartment (categoryId : string) : option string :=
  match getCategoryDepartment props with
  | Some lookup => lookup categoryId
  | None => None
  end.

(** [tx.departmentName || (getCategoryDepartment ?
    getCategoryDepartment(tx.category) : undefined)], the expression of
    lines 85, 125 and 238. *)
Definition effectiveDepartment (tx : Tx) : option string :=
  JS.or Some (departmentName tx) (categoryDepartment (category tx)).

(** The comparator of line 81:
    [new Date(b.date).getTime() - new Date(a.date).getTime()]. *)
Definition byDateDescending (a b : Tx) : Z := date b - date a.

(** The predicate of the department filter, lines 84 to 87. *)
Definition departmentMatches (departmentFilter : string) (tx : Tx) : bool :=
  let dept := effectiveDepartment tx in
  JS.toBoolean dept && JS.strictEq dept departmentFilter.

(** [if (departmentFilter && departmentFilter !== 'all')]. *)
Definition departmentFilterActive (departmentFilter : string) : bool :=
  JS.truthy departmentFilter && negb (String.eqb departmentFilter "all").

(** [filteredTransactions], lines 43 to 91, with [now] for [new Date()]. *)
Definition filteredTransactions (timeRange departmentFilter : string) (now : Date)
  : M num loc :=
  let '(startDate, endDate) := timeRangeBounds timeRange now in
  result <- match startDate, endDate with
            | Some startDate, Some endDate =>
                Array_filter
                  (fun t => isWithinInterval (date t) startDate endDate)
                  (transactions props)
            | _, _ => ret (transactions props)
            end ;;
  result <- Array_sort byDateDescending result ;;
  if departmentFilterActive departmentFilter
  then Array_filter (departmentMatches departmentFilter) result
  else ret result.

(** *** Totals *)

Record Bucket := mkBucket { income : num; expense : num }.

(** [Record<string, { income; expense }>]: the own properties in the order
    of their creation (currency codes are not array indices). *)
Definition Totals := list (string * Bucket).

Fixpoint getBucket (result : Totals) (key : string) : option Bucket :=
  match result with
  | [] => None
  | (k, b) :: rest => if String.eqb k key then Some b else getBucket rest key
  end.

Fixpoint updateBucket (f : Bucket -> Bucket) (key : string) (result : Totals)
  : Totals :=
  match result with
  | [] => []
  | (k, b) :: rest =>
      if String.eqb k key then (k, f b) :: rest
      else (k, b) :: updateBucket f key rest
  end.

(** [income += t.amount] or [expense += t.amount], by [t.type]. *)
Definition accumulate (t : Tx) (b : Bucket) : Bucket :=
  match type t with
  | Income => mkBucket (add (income b) (amount t)) (expense b)
  | Expense => mkBucket (income b) (add (expense b) (amount t))
  end.

(** The body of the [forEach] of [totals], lines 97 to 104. *)
Definition totalsStep (result : Totals) (t : Tx) : Totals :=
  let result :=
    match getBucket result (currency t) with
    | None => result ++ [(currency t, mkBucket zero zero)]
    | Some _ => result
    end in
  updateBucket (accumulate t) (currency t) result.

(** [totals], lines 93 to 108, over the elements of the filtered array. *)
Definition totals (filtered : list Tx) : Totals :=
  fold_left totalsStep filtered [].

(** *** Available departments *)

(** [set.add(x)] on a [Set] kept in insertion order. *)
Definition Set_add (x : string) (set : list string) : list string :=
  if existsb (String.eqb x) set then set else set ++ [x].

(** The body of the [forEach] of [availableDepartments], lines 125, 126. *)
Definition availableStep (set : list string) (tx : Tx) : list string :=
  match effectiveDepartment tx with
  | Some dept =>
      if JS.truthy dept && JS.truthy (JS.trim dept)
      then Set_add (JS.trim dept) set
      else set
  | None => set
  end.

(** The default comparator of [Array.prototype.sort]: code-unit order. *)
Definition defaultCompare (a b : string) : Z :=
  match String.compare a b with
  | Lt => -1
  | Eq => 0
  | Gt => 1
  end.

(** [availableDepartments], lines 122 to 129. *)
Definition availableDepartments (h : Store num) : list string :=
  sortWith defaultCompare
    (fold_left availableStep (elementsOf h (transactions props)) []).

(** *** The department editor *)

(** The three state cells of lines 119 to 121. *)
Record EditorState := mkEditor {
  editingId : option string;
  editingDept : string;
  applyToCategory : bool
}.

(** [useState] initial values. *)
Definition initialEditor : EditorState := mkEditor None "" false.

(** A call made to a collaborator. *)
Inductive Call :=
| CallUpdateTransaction (id : string) (departmentName : option string)
| CallUpdateCategory (id name : string) (departmentName : option string).

(** The [onClick] of the department cell, line 237. *)
Definition startEdit (transaction : Tx) (st : EditorState) : EditorState :=
  mkEditor
    (Some (id transaction))
    (JS.or (fun s => s)
       (JS.or Some (departmentName transaction)
          (match getCategoryDepartment props with
           | Some lookup => lookup (category transaction)
           | None => Some ""
           end))
       "")
    (applyToCategory st).

(** [onChange] of the input, line 222. *)
Definition updateDraft (text : string) (st : EditorState) : EditorState :=
  mkEditor (editingId st) text (applyToCategory st).

(** [onCheckedChange] of the checkbox, line 234. *)
Definition toggleApplyToCategory (v : bool) (st : EditorState) : EditorState :=
  mkEditor (editingId st) (editingDept st) v.

(** [editingDept.trim() || undefined]. *)
Definition trimmedOrUndefined (draft : string) : option string :=
  JS.or Some (Some (JS.trim draft)) None.

(** The [onClick] of the check button, lines 223 to 232: the calls made,
    in order, and the next state. *)
Definition commit (transaction : Tx) (st : EditorState) : list Call * EditorState :=
  let calls1 :=
    if updateTransaction props
    then [CallUpdateTransaction (id transaction)
            (trimmedOrUndefined (editingDept st))]
    else [] in
  let calls2 :=
    if applyToCategory st && updateCategory props
    then [CallUpdateCategory (category transaction)
            (getCategoryName props (category transaction))
            (trimmedOrUndefined (editingDept st))]
    else [] in
  (calls1 ++ calls2, mkEditor None "" (applyToCategory st)).

(** The [onClick] of the cancel button, line 233. *)
Definition cancel (st : EditorState) : list Call * EditorState :=
  ([], mkEditor None "" false).

End Component.

(** ** Reading the component *)

(** [props] with another array passed for [transactions]. *)
Definition withTransactions (r : loc) (props : StatisticsTableProps)
  : StatisticsTableProps :=
  mkProps r (getCategoryName props) (getCategoryDepartment props)
          (updateTransaction props) (updateCategory props) (onDelete props).

(** The location a computation returns and the store it leaves. *)
Definition resultOf {num A : Type} (m : M num A) (h : Store num) : A := fst (m h).
Definition storeAfter {num A : Type} (m : M num A) (h : Store num) : Store num :=
  snd (m h).

Section Reading.

Context {num : Type} {numOps : Number num}.

Abbreviation Tx := (Transaction num).

Variable props : StatisticsTableProps.

(** The time filter of lines 77 to 79 on the elements of an array. *)
Definition timeStage (timeRange : string) (now : Date) (l : list Tx) : list Tx :=
  match timeRangeBounds timeRange now with
  | (Some startDate, Some endDate) =>
      List.filter (fun t => isWithinInterval (date t) startDate endDate) l
  | _ => l
  end.

(** The elements [filteredTransactions] leaves in the array it returns,
    as a function of the elements of the array it is given
    ([filteredTransactions_elements] below). *)
Definition filteredSequence (timeRange departmentFilter : string) (now : Date)
  (l : list Tx) : list Tx :=
  let sorted := sortWith byDateDescending (timeStage timeRange now l) in
  if departmentFilterActive departmentFilter
  then List.filter (departmentMatches props departmentFilter) sorted
  else sorted.

(** The elements of the array [filteredTransactions] returns. *)
Definition filteredElements (timeRange departmentFilter : string) (now : Date)
  (h : Store num) : list Tx :=
  let m := filteredTransactions props timeRange departmentFilter now in
  elementsOf (storeAfter m h) (resultOf m h).

(** The amounts of the transactions of type [ty] in currency [c], in the
    order of the list, and their sum from [zero]. *)
Definition sameType (a b : TransactionType) : bool :=
  match a, b with
  | Income, Income | Expense, Expense => true
  | _, _ => false
  end.

Definition amountsOf (ty : TransactionType) (c : string) (l : list Tx) : list num :=
  map amount
    (List.filter (fun t => sameType (type t) ty && String.eqb (currency t) c) l).

Definition sumFrom (start : num) (amounts : list num) : num :=
  fold_left add amounts start.

(** What the transactions of currency [c] make of a bucket [b]. *)
Definition bucketAfter (c : string) (l : list Tx) (b : Bucket) : Bucket :=
  fold_left (fun b t => if String.eqb (currency t) c then accumulate t b else b) l b.

(** [t] contributes the label [x] to the department selector. *)
Definition contributes (t : Tx) (x : string) : Prop :=
  exists s, effectiveDepartment props t = Some s /\ JS.trim s = x /\ x <> "".

(** Some transaction of [l] is in currency [c]. *)
Definition occurs (c : string) (l : list Tx) : bool :=
  existsb (fun t => String.eqb (currency t) c) l.

End Reading.

(** The distinct entries of a list, each at its first occurrence. *)
Fixpoint firstOccurrences (l : list string) : list string :=
  match l with
  | [] => []
  | x :: l' => x :: List.filter (fun y => negb (String.eqb y x)) (firstOccurrences l')
  end.

(** [a] may stand before [b] for the comparator. *)
Definition inOrder {A : Type} (compareFn : A -> A -> Z) (a b : A) : Prop :=
  compareFn a b <= 0.

(** Date descending, as a relation between an element and a later one. *)
Definition notOlder {num : Type} (a b : Transaction num) : Prop := date b <= date a.

(** Code-unit order on strings. *)
Definition codeUnitLe (a b : string) : Prop := String.compare a b <> Gt.

(** The token is none of the five the [switch] knows. *)
Definition unrecognized (timeRange : string) : Prop :=
  timeRange <> "thisMonth" /\ timeRange <> "lastMonth" /\
  timeRange <> "last3Months" /\ timeRange <> "last6Months" /\
  timeRange <> "thisYear".

(** ** Sample data *)

Module Examples.

Definition lookupSales (categoryId : string) : option string := Some "Sales".

(** Every category has been deleted: the lookup finds nothing. *)
Definition lookupNothing (categoryId : string) : option string := None.

Definition propsSales : StatisticsTableProps :=
  mkProps 0%nat (fun categoryId => categoryId) (Some lookupSales) true true false.

Definition propsDangling : StatisticsTableProps :=
  mkProps 0%nat (fun categoryId => categoryId) (Some lookupNothing) true true false.

Definition older : Transaction Z :=
  mkTransaction "t1" Income 100 "PLN" "travel" None 10 None.

Definition newer : Transaction Z :=
  mkTransaction "t2" Expense 40 "PLN" "travel" None 20 None.

Definition usd : Transaction Z :=
  mkTransaction "t3" Income 5 "USD" "travel" None 30 None.

(** An override made of one space. *)
Definition blankOverride : Transaction Z :=
  mkTransaction "t4" Income 7 "PLN" "travel" (Some " ") 40 None.

(** An override with a leading space. *)
Definition paddedOverride : Transaction Z :=
  mkTransaction "t5" Income 7 "PLN" "travel" (Some " Sales") 50 None.

(** An override that trims to the sentinel of the department filter. *)
Definition paddedAll : Transaction Z :=
  mkTransaction "t6" Income 7 "PLN" "travel" (Some " all") 60 None.

(** An override on a transaction whose category is looked up in vain. *)
Definition salesOverride : Transaction Z :=
  mkTransaction "t7" Income 7 "PLN" "deleted" (Some "Sales") 70 None.

Definition storeOf (l : list (Transaction Z)) : Store Z := {[ 0%nat := l ]}.

(** 15 March 2024, noon. *)
Definition midMarch2024 : Date := mkDate 2024 2 15 43200000.

(** A transaction dated 1 March 2024, 00:00:00.000. *)
Definition atMonthStart : Transaction Z :=
  mkTransaction "t8" Income 1 "PLN" "travel" None
    (getTime (startOfMonth midMarch2024)) None.

End Examples.

(** ** More of the component *)

(** [editingId === transaction.id], line 220: the row shows the editor. *)
Definition isEditingRow {num : Type} (st : EditorState) (transaction : Transaction num)
  : bool :=
  match editingId st with
  | Some i => String.eqb i (id transaction)
  | None => false
  end.

(** The [departmentName] a call carries. *)
Definition callDepartmentName (c : Call) : option string :=
  match c with
  | CallUpdateTransaction _ d => d
  | CallUpdateCategory _ _ d => d
  end.

(** The first, respectively last, character of [s] is white space. *)
Definition startsWithWhiteSpace (s : string) : bool :=
  match s with
  | EmptyString => false
  | String a _ => JS.isWhiteSpace a
  end.

Fixpoint endsWithWhiteSpace (s : string) : bool :=
  match s with
  | EmptyString => false
  | String a EmptyString => JS.isWhiteSpace a
  | String _ s' => endsWithWhiteSpace s'
  end.

(** Every character of [s] is white space. *)
Fixpoint allWhiteSpace (s : string) : bool :=
  match s with
  | EmptyString => true
  | String a s' => JS.isWhiteSpace a && allWhiteSpace s'
  end.

(** [filteredTransactions.length === 0], line 195: the row that says
    there are no transactions is shown in place of the rows. *)
Definition showsNoTransactions {num : Type} (filtered : list (Transaction num)) : bool :=
  Nat.eqb (length filtered) 0.

Section Predicates.

Context {num : Type}.

Variable props : StatisticsTableProps.

(** The test of the time filter, [true] when the range has no bound. *)
Definition withinRange (timeRange : string) (now : Date) (t : Transaction num) : bool :=
  match timeRangeBounds timeRange now with
  | (Some startDate, Some endDate) => isWithinInterval (date t) startDate endDate
  | _ => true
  end.

(** The test of the department filter, [true] when the filter is off. *)
Definition departmentAccepts (departmentFilter : string) (t : Transaction num) : bool :=
  if departmentFilterActive departmentFilter
  then departmentMatches props departmentFilter t
  else true.

End Predicates.

(** ** GoogleSheetsSync *)

(** [src/components/GoogleSheetsSync.tsx].  A handler is read as the list
    of the effects it has, in order, for each way the awaited call can
    end.  The texts of the toasts are kept as constructors. *)
Module GoogleSheetsSync.

Definition SPREADSHEET_ID : string := "1WFFz7EV2ZUor-sQhvkZj3EHoTLRiEYjuxrTwLB96QKI".
Definition SHEET_RANGE : string := "Sheet1!A:G".

(** A value that is thrown: an [Error] with its message, or anything
    else. *)
Inductive Thrown :=
| ErrorObject (message : string)
| OtherValue.

(** [{ data, error }]: [data] may be missing, and so may [data.values]. *)
Record Response := mkResponse {
  data : option (option (list (list string)));
  error : option Thrown
}.

(** How [await supabase.functions.invoke(...)] ends. *)
Inductive InvokeOutcome :=
| Resolves (response : Response)
| Rejects (thrown : Thrown).

(** The [body] of the call. *)
Inductive InvokeBody :=
| WriteBody (spreadsheetId range : string) (values : list (list string))
| ReadBody (spreadsheetId range : string).

(** The toasts: export done with the number of transactions, import done
    with the number of rows, and the two failures with
    [error instanceof Error ? error.message : ...], [None] being the fixed
    text; the failures have [variant: 'destructive']. *)
Inductive ToastContent :=
| ExportDone (count : nat)
| ExportFailed (message : option string)
| ImportDone (rows : nat)
| ImportFailed (message : option string).

Definition destructive (t : ToastContent) : bool :=
  match t with
  | ExportFailed _ | ImportFailed _ => true
  | ExportDone _ | ImportDone _ => false
  end.

Inductive Event :=
| SetIsExporting (b : bool)
| SetIsImporting (b : bool)
| Invoke (body : InvokeBody)
| ConsoleError (thrown : Thrown)
| Toast (t : ToastContent)
| OnImport (rows : list (list string)).

Definition errorMessage (thrown : Thrown) : option string :=
  match thrown with
  | ErrorObject message => Some message
  | OtherValue => None
  end.

(** The value [catch] receives, if any: the rejection, or the [error] of
    the response thrown by [if (error) throw error]. *)
Definition caught (outcome : InvokeOutcome) : option Thrown :=
  match outcome with
  | Resolves response => error response
  | Rejects thrown => Some thrown
  end.

(** [data?.values?.length || 0]. *)
Definition receivedRows (outcome : InvokeOutcome) : nat :=
  match outcome with
  | Resolves (mkResponse (Some (Some values)) _) => length values
  | _ => 0%nat
  end.

Section Handlers.

Context {num : Type}.

(** [Date.prototype.toLocaleDateString] on the time value of the date and
    [Number.prototype.toString], both of the runtime. *)
Variable toLocaleDateString : Z -> string.
Variable numberToString : num -> string.

Variable getCategoryName : string -> string.

Definition typeText (ty : TransactionType) : string :=
  match ty with
  | Income => "income"
  | Expense => "expense"
  end.

Definition headers : list string :=
  ["Date"; "Type"; "Category"; "Amount"; "Currency"; "Description"; "ID"].

(** A row of lines 29 to 37. *)
Definition exportRow (tx : Transaction num) : list string :=
  [toLocaleDateString (date tx);
   typeText (type tx);
   getCategoryName (category tx);
   numberToString (amount tx);
   currency tx;
   JS.or (fun s => s) (description tx) "";
   id tx].

(** [[headers, ...rows]]. *)
Definition exportValues (transactions : list (Transaction num)) : list (list string) :=
  headers :: map exportRow transactions.

(** [handleExport], lines 24 to 66. *)
Definition handleExport (transactions : list (Transaction num))
  (outcome : InvokeOutcome) : list Event :=
  [SetIsExporting true;
   Invoke (WriteBody SPREADSHEET_ID SHEET_RANGE (exportValues transactions))]
  ++ match caught outcome with
     | None => [Toast (ExportDone (length transactions))]
     | Some thrown => [ConsoleError thrown; Toast (ExportFailed (errorMessage thrown))]
     end
  ++ [SetIsExporting false].

(** [handleImport], lines 68 to 95. *)
Definition handleImport (outcome : InvokeOutcome) : list Event :=
  [SetIsImporting true; Invoke (ReadBody SPREADSHEET_ID SHEET_RANGE)]
  ++ match caught outcome with
     | None => [Toast (ImportDone (receivedRows outcome))]
     | Some thrown => [ConsoleError thrown; Toast (ImportFailed (errorMessage thrown))]
     end
  ++ [SetIsImporting false].

End Handlers.

(** The toasts, the calls and the errors logged in a list of effects. *)
Definition toasts (trace : list Event) : list ToastContent :=
  omap (fun e => match e with Toast t => Some t | _ => None end) trace.

Definition invocations (trace : list Event) : list InvokeBody :=
  omap (fun e => match e with Invoke body => Some body | _ => None end) trace.

Definition logged (trace : list Event) : list Thrown :=
  omap (fun e => match e with ConsoleError thrown => Some thrown | _ => None end) trace.

Definition imported (trace : list Event) : list (list (list string)) :=
  omap (fun e => match e with OnImport rows => Some rows | _ => None end) trace.

(** The value of [isExporting], respectively [isImporting], after the
    effects, from its value before. *)
Definition isExportingAfter (trace : list Event) (before : bool) : bool :=
  fold_left (fun b e => match e with SetIsExporting b' => b' | _ => b end) trace before.

Definition isImportingAfter (trace : list Event) (before : bool) : bool :=
  fold_left (fun b e => match e with SetIsImporting b' => b' | _ => b end) trace before.

End GoogleSheetsSync.

(** ** PayoutDialog *)

(** [src/components/PayoutDialog.tsx].  The two handlers are read as the
    list of their effects; the document, the file and the summary text
    are made from the transaction and are kept as that transaction. *)
Module PayoutDialog.

(** The state cells of lines 24 to 34. *)
Module Form.

Record State := mkState {
  open : bool;
  amount : string;
  currency : string;
  categoryId : string;
  issuedTo : string;
  decisionNumber : string;
  amountInWords : string;
  cashierName : string;
  description : string;
  date : string
}.

End Form.

(** [Omit<Transaction, 'id' | 'createdAt'>]; [date] holds the string given
    to [new Date]. *)
Record NewTransaction (num : Type) := mkNewTransaction {
  type : TransactionType;
  amount : num;
  currency : string;
  category : string;
  description : string;
  date : string;
  issuedTo : option string;
  decisionNumber : option string;
  amountInWords : option string;
  cashierName : option string
}.

Arguments mkNewTransaction {num}.
Arguments type {num}.
Arguments amount {num}.
Arguments currency {num}.
Arguments category {num}.
Arguments description {num}.
Arguments date {num}.
Arguments issuedTo {num}.
Arguments decisionNumber {num}.
Arguments amountInWords {num}.
Arguments cashierName {num}.

(** What the browser does with a share request: [canShare] is
    [navigator.canShare && navigator.canShare({ files })]; the other two
    say whether [navigator.share], respectively
    [navigator.clipboard.writeText], resolves. *)
Record Browser := mkBrowser {
  canShare : bool;
  shareResolves : bool;
  clipboardResolves : bool
}.

(** The toasts of lines 87, 101, 104, 111 and 113. *)
Inductive ToastContent :=
| ExpenseAddedDownloaded
| PayoutShared
| PayoutSharedUnknown
| PayoutSharedCopied.

Inductive Event (num : Type) :=
| OnAddTransaction (tx : NewTransaction num)
| DownloadPdf (tx : NewTransaction num)
| Share (tx : NewTransaction num)
| ClipboardWriteText (tx : NewTransaction num)
| SetOpen (b : bool)
| Toast (t : ToastContent).

Arguments OnAddTransaction {num}.
Arguments DownloadPdf {num}.
Arguments Share {num}.
Arguments ClipboardWriteText {num}.
Arguments SetOpen {num}.
Arguments Toast {num}.

(** [s || undefined]. *)
Definition orUndefined (s : string) : option string := JS.or Some (Some s) None.

Section Handlers.

Context {num : Type}.

(** [parseFloat], and the comparison [x <= 0] of numbers. *)
Variable parseFloat : string -> num.
Variable leZero : num -> bool.

(** [buildTransaction], lines 36 to 47. *)
Definition buildTransaction (f : Form.State) : NewTransaction num :=
  mkNewTransaction
    Expense
    (parseFloat (Form.amount f))
    (Form.currency f)
    (Form.categoryId f)
    (Form.description f)
    (Form.date f)
    (orUndefined (Form.issuedTo f))
    (orUndefined (Form.decisionNumber f))
    (orUndefined (Form.amountInWords f))
    (orUndefined (Form.cashierName f)).

(** [!amount || parseFloat(amount) <= 0 || !categoryId], lines 73, 91. *)
Definition rejected (f : Form.State) : bool :=
  negb (JS.truthy (Form.amount f))
  || leZero (parseFloat (Form.amount f))
  || negb (JS.truthy (Form.categoryId f)).

(** [handleDownload], lines 72 to 88. *)
Definition handleDownload (f : Form.State) : list (Event num) :=
  if rejected f then []
  else
    let tx := buildTransaction f in
    [OnAddTransaction tx; DownloadPdf tx; SetOpen false; Toast ExpenseAddedDownloaded].

(** [handleShare], lines 90 to 117. *)
Definition handleShare (browser : Browser) (f : Form.State) : list (Event num) :=
  if rejected f then []
  else
    let tx := buildTransaction f in
    [OnAddTransaction tx]
    ++ (if canShare browser
        then [Share tx;
              Toast (if shareResolves browser then PayoutShared
                     else PayoutSharedUnknown)]
        else [ClipboardWriteText tx;
              Toast (if clipboardResolves browser then PayoutSharedCopied
                     else PayoutSharedUnknown)])
    ++ [SetOpen false].

End Handlers.

(** The transactions added, the toasts and the value of [open] after a
    list of effects. *)
Definition added {num : Type} (trace : list (Event num)) : list (NewTransaction num) :=
  omap (fun e => match e with OnAddTransaction tx => Some tx | _ => None end) trace.

Definition toasts {num : Type} (trace : list (Event num)) : list ToastContent :=
  omap (fun e => match e with Toast t => Some t | _ => None end) trace.

Definition openAfter {num : Type} (trace : list (Event num)) (before : bool) : bool :=
  fold_left (fun b e => match e with SetOpen b' => b' | _ => b end) trace before.

Definition shared {num : Type} (trace : list (Event num)) : list (NewTransaction num) :=
  omap (fun e => match e with Share tx => Some tx | _ => None end) trace.

Definition copied {num : Type} (trace : list (Event num)) : list (NewTransaction num) :=
  omap (fun e => match e with ClipboardWriteText tx => Some tx | _ => None end) trace.

End PayoutDialog.

(** ** More sample data *)

Module MoreExamples.

(** A stand-in for [parseFloat] on the one amount of [sampleForm]. *)
Definition sampleParse (s : string) : Z := if String.eqb s "250" then 250 else 0.

Definition sampleLeZero (x : Z) : bool := x <=? 0.

(** A filled form: 250 PLN for travel, issued to Anna. *)
Definition sampleForm : PayoutDialog.Form.State :=
  PayoutDialog.Form.mkState true "250" "PLN" "travel" "Anna" "" "" "" "taxi" "2024-03-15".

(** A browser that cannot share files and whose clipboard works. *)
Definition clipboardOnly : PayoutDialog.Browser :=
  PayoutDialog.mkBrowser false false true.

(** The editor after a click on [Examples.older] and the draft typed. *)
Definition draftSales : EditorState :=
  updateDraft " Sales " (startEdit Examples.propsSales Examples.older initialEditor).

End MoreExamples.

(** * Properties *)

(** ** Strings *)

Lemma truthy_true (s : string) : JS.truthy s = true <-> s <> "".
Proof. destruct s; simpl; split; intros; congruence. Qed.

(** ** Calendar arithmetic *)

Section Calendar.

Lemma DayFromYear_next (y : Z) :
  DayFromYear (y + 1) = DayFromYear y + (if isLeapYear y then 366 else 365).
Proof.
  unfold DayFromYear, isLeapYear.
  destruct (y mod 4 =? 0) eqn:H4; destruct (y mod 100 =? 0) eqn:H100;
    destruct (y mod 400 =? 0) eqn:H400; cbn [andb orb negb];
    rewrite ?Z.eqb_eq, ?Z.eqb_neq in *; Z.div_mod_to_equations; lia.
Qed.

Lemma getDaysInMonth_pos (y m : Z) : 28 <= getDaysInMonth y m <= 31.
Proof.
  unfold getDaysInMonth.
  destruct (isLeapYear y); destruct m as [|p|p]; try lia;
    do 4 (try destruct p as [p|p|]); lia.
Qed.

Lemma month_cases (m : Z) :
  0 <= m < 12 ->
  m = 0 \/ m = 1 \/ m = 2 \/ m = 3 \/ m = 4 \/ m = 5 \/
  m = 6 \/ m = 7 \/ m = 8 \/ m = 9 \/ m = 10 \/ m = 11.
Proof. lia. Qed.

Ltac by_month H :=
  apply month_cases in H;
  repeat (destruct H as [H | H]); subst.

Lemma daysBeforeMonth_bounds (y m : Z) :
  0 <= m < 12 -> 0 <= daysBeforeMonth y m <= 335.
Proof.
  intros H. unfold daysBeforeMonth.
  by_month H; destruct (isLeapYear y); lia.
Qed.

Lemma daysBeforeMonth_mono (y m1 m2 : Z) :
  0 <= m1 -> m1 <= m2 -> m2 < 12 ->
  daysBeforeMonth y m1 <= daysBeforeMonth y m2.
Proof.
  intros H0 H1 H2.
  assert (Hm1 : 0 <= m1 < 12) by lia.
  assert (Hm2 : 0 <= m2 < 12) by lia.
  revert H1. unfold daysBeforeMonth.
  destruct (isLeapYear y); by_month Hm1; by_month Hm2; lia.
Qed.

(** The first day of a month does not come after the first day of a later
    month of the same year, or of any month of the next year. *)
Lemma MakeDay_month_le (y1 m1 y2 m2 : Z) :
  0 <= m1 < 12 -> 0 <= m2 < 12 ->
  (y1 = y2 /\ m1 <= m2) \/ y1 + 1 = y2 ->
  MakeDay y1 m1 1 <= MakeDay y2 m2 1.
Proof.
  intros H1 H2 [[-> Hle] | <-]; unfold MakeDay.
  - pose proof (daysBeforeMonth_mono y2 m1 m2). lia.
  - rewrite DayFromYear_next.
    pose proof (daysBeforeMonth_bounds y1 m1 H1).
    pose proof (daysBeforeMonth_bounds (y1 + 1) m2 H2).
    destruct (isLeapYear y1); lia.
Qed.

(** From the first instant of a month to the last instant of a month that
    is not earlier. *)
Lemma getTime_month_span (y1 m1 y2 m2 : Z) :
  0 <= m1 < 12 -> 0 <= m2 < 12 ->
  (y1 = y2 /\ m1 <= m2) \/ y1 + 1 = y2 ->
  getTime (mkDate y1 m1 1 0)
  <= getTime (mkDate y2 m2 (getDaysInMonth y2 m2) (msPerDay - 1)).
Proof.
  intros H1 H2 H.
  pose proof (MakeDay_month_le y1 m1 y2 m2 H1 H2 H) as Hd.
  pose proof (getDaysInMonth_pos y2 m2) as Hp.
  unfold getTime, MakeDay, msPerDay in *. cbn [getFullYear getMonth getDate msWithinDay].
  lia.
Qed.

Lemma startOfMonth_subMonths (now : Date) (k : Z) :
  k <> 0 ->
  startOfMonth (subMonths now k)
  = mkDate (getFullYear now + (getMonth now - k) / 12)
           ((getMonth now - k) mod 12) 1 0.
Proof.
  intros Hk. unfold subMonths, addMonths.
  destruct (- k =? 0) eqn:E; [apply Z.eqb_eq in E; lia |].
  replace (getMonth now + - k) with (getMonth now - k) by lia.
  destruct (getDate now >=? _); reflexivity.
Qed.

Lemma endOfMonth_subMonths (now : Date) (k : Z) :
  k <> 0 ->
  endOfMonth (subMonths now k)
  = let y := getFullYear now + (getMonth now - k) / 12 in
    let m := (getMonth now - k) mod 12 in
    mkDate y m (getDaysInMonth y m) (msPerDay - 1).
Proof.
  intros Hk. unfold subMonths, addMonths.
  destruct (- k =? 0) eqn:E; [apply Z.eqb_eq in E; lia |].
  replace (getMonth now + - k) with (getMonth now - k) by lia.
  destruct (getDate now >=? _); reflexivity.
Qed.

(** The month [k] months before the month of [now], for [k] below 12. *)
Lemma months_back (m k : Z) :
  0 <= m < 12 -> 0 <= k < 12 ->
  ((m - k) / 12 = 0 /\ (m - k) mod 12 = m - k /\ k <= m) \/
  ((m - k) / 12 = -1 /\ (m - k) mod 12 = m - k + 12 /\ m < k).
Proof. intros Hm Hk. Z.div_mod_to_equations. lia. Qed.

(** Every interval the [switch] produces has its ends in order. *)
Lemma timeRangeBounds_ordered (timeRange : string) (now startDate endDate : Date) :
  validDate now ->
  timeRangeBounds timeRange now = (Some startDate, Some endDate) ->
  getTime startDate <= getTime endDate.
Proof.
  intros (Hm & Hd & Hms) Hb. unfold timeRangeBounds in Hb.
  assert (Hspan : forall k, 0 <= k < 12 ->
    getTime (mkDate (getFullYear now + (getMonth now - k) / 12)
                    ((getMonth now - k) mod 12) 1 0)
    <= getTime (endOfMonth now)).
  { intros k Hk. unfold endOfMonth.
    destruct (months_back (getMonth now) k Hm Hk) as [(Hq & Hr & Hle) | (Hq & Hr & Hlt)];
      rewrite Hq, Hr; apply getTime_month_span; lia. }
  repeat match type of Hb with
         | (if ?c then _ else _) = _ => destruct c
         end; inversion Hb; subst; clear Hb.
  - unfold startOfMonth, endOfMonth. apply getTime_month_span; lia.
  - rewrite startOfMonth_subMonths, endOfMonth_subMonths by lia. cbv zeta.
    destruct (months_back (getMonth now) 1 Hm ltac:(lia)) as [(Hq & Hr & ?) | (Hq & Hr & ?)];
      rewrite Hq, Hr; apply getTime_month_span; lia.
  - rewrite startOfMonth_subMonths by lia. apply Hspan; lia.
  - rewrite startOfMonth_subMonths by lia. apply Hspan; lia.
  - pose proof (getTime_month_span (getFullYear now) 0 (getFullYear now) 11) as H.
    unfold startOfYear, endOfYear. cbn [getDaysInMonth] in H. apply H; lia.
Qed.

End Calendar.

(** ** Stable sorting *)

Section Sorting.

Context {A : Type} (compareFn : A -> A -> Z).

Lemma insertSorted_Permutation (x : A) (l : list A) :
  Permutation (insertSorted compareFn x l) (x :: l).
Proof.
  induction l as [|y l IH]; simpl; [reflexivity |].
  destruct (compareFn x y <=? 0); [reflexivity |].
  rewrite IH. apply perm_swap.
Qed.

Lemma sortWith_Permutation (l : list A) : Permutation (sortWith compareFn l) l.
Proof.
  induction l as [|x l IH]; simpl; [reflexivity |].
  rewrite insertSorted_Permutation. now constructor.
Qed.

Lemma insertSorted_head (x : A) (l : list A) :
  HdRel (inOrder compareFn) x l -> insertSorted compareFn x l = x :: l.
Proof.
  destruct l as [|y l]; simpl; [reflexivity |].
  intros H. inversion H as [|? ? Hxy]; subst. unfold inOrder in Hxy.
  destruct (compareFn x y <=? 0) eqn:E; [reflexivity |].
  apply Z.leb_gt in E. lia.
Qed.

(** Sorting a sequence that is already in order changes nothing. *)
Lemma sortWith_sorted (l : list A) :
  Sorted (inOrder compareFn) l -> sortWith compareFn l = l.
Proof.
  induction 1 as [|x l Hs IH Hd]; simpl; [reflexivity |].
  rewrite IH. now apply insertSorted_head.
Qed.

Hypothesis compareFn_total : forall a b, compareFn a b <= 0 \/ compareFn b a <= 0.

Lemma insertSorted_Sorted (x : A) (l : list A) :
  Sorted (inOrder compareFn) l -> Sorted (inOrder compareFn) (insertSorted compareFn x l).
Proof.
  induction 1 as [|y l Hs IH Hd]; simpl.
  - repeat constructor.
  - destruct (compareFn x y <=? 0) eqn:E.
    + apply Z.leb_le in E. repeat constructor; assumption.
    + apply Z.leb_gt in E. constructor; [exact IH |].
      destruct l as [|z l]; simpl.
      * constructor. unfold inOrder. destruct (compareFn_total x y); lia.
      * destruct (compareFn x z <=? 0).
        -- constructor. unfold inOrder. destruct (compareFn_total x y); lia.
        -- inversion Hd; subst. now constructor.
Qed.

Lemma sortWith_Sorted (l : list A) : Sorted (inOrder compareFn) (sortWith compareFn l).
Proof.
  induction l as [|x l IH]; simpl; [constructor |].
  now apply insertSorted_Sorted.
Qed.

End Sorting.

Section ListFacts.

Context {A : Type}.

Lemma filter_elem_of (p : A -> bool) (l : list A) (x : A) :
  x ∈ List.filter p l <-> x ∈ l /\ p x = true.
Proof. rewrite !list_elem_of_In. apply filter_In. Qed.

Lemma filter_StronglySorted (R : A -> A -> Prop) (p : A -> bool) (l : list A) :
  StronglySorted R l -> StronglySorted R (List.filter p l).
Proof.
  induction 1 as [|x l Hs IH Hall]; simpl; [constructor |].
  destruct (p x); [| exact IH].
  constructor; [exact IH |].
  rewrite Forall_forall in *. intros y Hy.
  apply Hall. apply filter_elem_of in Hy. tauto.
Qed.

Lemma filter_idempotent (p : A -> bool) (l : list A) :
  List.filter p (List.filter p l) = List.filter p l.
Proof.
  induction l as [|x l IH]; simpl; [reflexivity |].
  destruct (p x) eqn:E; simpl; [rewrite E, IH; reflexivity | exact IH].
Qed.

End ListFacts.

(** ** Arrays in the store *)

Section StoreFacts.

Context {num : Type}.

Implicit Types (h : Store num) (r : loc) (p : Transaction num -> bool).

Lemma Array_filter_elements p r h :
  elementsOf (storeAfter (Array_filter p r) h) (resultOf (Array_filter p r) h)
  = List.filter p (elementsOf h r).
Proof. unfold elementsOf, storeAfter, resultOf, Array_filter. simpl. apply lookup_total_insert_eq. Qed.

Lemma Array_filter_fresh p r h : resultOf (Array_filter p r) h ∉ dom h.
Proof. unfold resultOf, Array_filter. simpl. apply is_fresh. Qed.

(** [filter] leaves every array of the store as it is. *)
Lemma Array_filter_frame p r h r0 :
  r0 ∈ dom h ->
  elementsOf (storeAfter (Array_filter p r) h) r0 = elementsOf h r0.
Proof.
  intros Hin. unfold elementsOf, storeAfter, Array_filter. simpl.
  apply lookup_total_insert_ne. intros E. rewrite <- E in Hin.
  now apply (is_fresh (dom h)).
Qed.

Lemma Array_filter_dom p r h r0 :
  r0 ∈ dom h -> r0 ∈ dom (storeAfter (Array_filter p r) h).
Proof.
  intros Hin. unfold storeAfter, Array_filter. simpl.
  rewrite dom_insert_L. set_solver.
Qed.

Lemma Array_sort_result compareFn r h : resultOf (Array_sort compareFn r) h = r.
Proof. reflexivity. Qed.

(** [sort] rewrites the array it is called on. *)
Lemma Array_sort_elements compareFn r h :
  elementsOf (storeAfter (Array_sort compareFn r) h) r
  = sortWith compareFn (elementsOf h r).
Proof. unfold elementsOf, storeAfter, Array_sort. simpl. apply lookup_total_insert_eq. Qed.

Lemma Array_sort_frame compareFn r h r0 :
  r0 <> r ->
  elementsOf (storeAfter (Array_sort compareFn r) h) r0 = elementsOf h r0.
Proof.
  intros Hne. unfold elementsOf, storeAfter, Array_sort. simpl.
  apply lookup_total_insert_ne. congruence.
Qed.

Lemma Array_sort_dom compareFn r h r0 :
  r0 ∈ dom h -> r0 ∈ dom (storeAfter (Array_sort compareFn r) h).
Proof.
  intros Hin. unfold storeAfter, Array_sort. simpl.
  rewrite dom_insert_L. set_solver.
Qed.

End StoreFacts.

(** ** The filter pipeline *)

Section Pipeline.

Context {num : Type} {numOps : Number num}.

Implicit Types (h : Store num) (t : Transaction num) (l : list (Transaction num)).

Variable props : StatisticsTableProps.

(** The three shapes [filteredTransactions] takes. *)
Lemma filteredTransactions_unfold timeRange departmentFilter now h :
  filteredTransactions props timeRange departmentFilter now h
  = let start :=
      match timeRangeBounds timeRange now with
      | (Some startDate, Some endDate) =>
          Array_filter (fun t => isWithinInterval (date t) startDate endDate)
            (transactions props) h
      | _ => (transactions props, h)
      end in
    let sorted := Array_sort byDateDescending (fst start) (snd start) in
    if departmentFilterActive departmentFilter
    then Array_filter (departmentMatches props departmentFilter) (fst sorted) (snd sorted)
    else sorted.
Proof.
  unfold filteredTransactions, bind, ret.
  destruct (timeRangeBounds timeRange now) as [[s|] [e|]];
    destruct (departmentFilterActive departmentFilter); reflexivity.
Qed.

(** The array returned holds the filtered sequence of the input elements. *)
Lemma filteredTransactions_elements timeRange departmentFilter now h :
  filteredElements props timeRange departmentFilter now h
  = filteredSequence props timeRange departmentFilter now
      (elementsOf h (transactions props)).
Proof.
  unfold filteredElements, resultOf, storeAfter.
  rewrite filteredTransactions_unfold. unfold filteredSequence, timeStage.
  destruct (timeRangeBounds timeRange now) as [[s|] [e|]]; cbv zeta;
    destruct (departmentFilterActive departmentFilter);
    unfold Array_filter, Array_sort, elementsOf; simpl;
    rewrite ?lookup_total_insert_eq; reflexivity.
Qed.

(** With an unbounded range the input array itself is sorted. *)
Lemma filteredTransactions_unbounded_in_place timeRange departmentFilter now h :
  timeRangeBounds timeRange now = (None, None) ->
  elementsOf (storeAfter (filteredTransactions props timeRange departmentFilter now) h)
    (transactions props)
  = sortWith byDateDescending (elementsOf h (transactions props)).
Proof.
  intros Hb. unfold storeAfter. rewrite filteredTransactions_unfold, Hb. cbv zeta.
  destruct (departmentFilterActive departmentFilter).
  - etransitivity; [apply Array_filter_frame |].
    + unfold Array_sort. simpl. rewrite dom_insert_L. set_solver.
    + apply (Array_sort_elements byDateDescending (transactions props) h).
  - apply (Array_sort_elements byDateDescending (transactions props) h).
Qed.

(** With an unbounded range and no department filter, the array returned
    is the input array. *)
Lemma filteredTransactions_unbounded_same_array timeRange departmentFilter now h :
  timeRangeBounds timeRange now = (None, None) ->
  departmentFilterActive departmentFilter = false ->
  resultOf (filteredTransactions props timeRange departmentFilter now) h
  = transactions props.
Proof.
  intros Hb Hd. unfold resultOf. rewrite filteredTransactions_unfold, Hb, Hd.
  reflexivity.
Qed.

(** With a bounded range the input array keeps its elements. *)
Lemma filteredTransactions_bounded_frame timeRange departmentFilter now h s e :
  timeRangeBounds timeRange now = (Some s, Some e) ->
  transactions props ∈ dom h ->
  elementsOf (storeAfter (filteredTransactions props timeRange departmentFilter now) h)
    (transactions props)
  = elementsOf h (transactions props).
Proof.
  intros Hb Hin. unfold storeAfter. rewrite filteredTransactions_unfold, Hb. cbv zeta.
  set (p := fun t : Transaction num => isWithinInterval (date t) s e).
  pose proof (Array_filter_fresh p (transactions props) h) as Hfresh.
  assert (Hne : transactions props <> resultOf (Array_filter p (transactions props)) h)
    by (intros E; rewrite <- E in Hfresh; contradiction).
  assert (Hsorted :
    elementsOf (snd (Array_sort byDateDescending
                       (fst (Array_filter p (transactions props) h))
                       (snd (Array_filter p (transactions props) h))))
               (transactions props)
    = elementsOf h (transactions props)).
  { etransitivity; [apply Array_sort_frame; exact Hne |].
    apply Array_filter_frame; exact Hin. }
  destruct (departmentFilterActive departmentFilter); [| exact Hsorted].
  etransitivity; [| exact Hsorted].
  apply Array_filter_frame.
  apply Array_sort_dom, Array_filter_dom, Hin.
Qed.

End Pipeline.

(** ** The filtered sequence *)

Section Sequence.

Context {num : Type} {numOps : Number num}.

Implicit Types (h : Store num) (t : Transaction num) (l : list (Transaction num)).

Variable props : StatisticsTableProps.

Lemma byDateDescending_total (a b : Transaction num) :
  byDateDescending a b <= 0 \/ byDateDescending b a <= 0.
Proof. unfold byDateDescending. lia. Qed.

Lemma sortWith_byDate_StronglySorted l :
  StronglySorted notOlder (sortWith byDateDescending l).
Proof.
  assert (Htrans : Relations_1.Transitive (@notOlder num)).
  { intros a b c. unfold notOlder. lia. }
  apply (Sorted_StronglySorted Htrans).
  pose proof (sortWith_Sorted byDateDescending byDateDescending_total l) as Hs.
  induction Hs as [|x l' Hs IH Hd]; constructor; [exact IH |].
  destruct Hd as [|y l'' Hxy]; constructor.
  unfold inOrder, byDateDescending in Hxy. unfold notOlder. lia.
Qed.

Lemma StronglySorted_notOlder_sortWith l :
  StronglySorted notOlder l -> sortWith byDateDescending l = l.
Proof.
  intros Hs. apply sortWith_sorted. apply StronglySorted_Sorted in Hs.
  induction Hs as [|x l' Hs IH Hd]; constructor; [exact IH |].
  destruct Hd as [|y l'' Hxy]; constructor.
  unfold inOrder, byDateDescending. unfold notOlder in Hxy. lia.
Qed.

Lemma filter_all_true (p : Transaction num -> bool) l :
  (forall t, t ∈ l -> p t = true) -> List.filter p l = l.
Proof.
  induction l as [|x l IH]; intros H; simpl; [reflexivity |].
  rewrite (H x) by (left; reflexivity).
  f_equal. apply IH. intros t Ht. apply H. now right.
Qed.

Lemma timeStage_elem_of timeRange now l t :
  t ∈ timeStage timeRange now l -> t ∈ l.
Proof.
  unfold timeStage. destruct (timeRangeBounds timeRange now) as [[s|] [e|]]; auto.
  rewrite filter_elem_of. tauto.
Qed.

(** The time filter keeps every element of a sequence it has produced. *)
Lemma timeStage_fixpoint timeRange now l l' :
  (forall t, t ∈ l' -> t ∈ timeStage timeRange now l) ->
  timeStage timeRange now l' = l'.
Proof.
  unfold timeStage. destruct (timeRangeBounds timeRange now) as [[s|] [e|]]; auto.
  intros H. apply filter_all_true. intros t Ht.
  apply H, filter_elem_of in Ht. tauto.
Qed.

Lemma filteredSequence_StronglySorted timeRange departmentFilter now l :
  StronglySorted notOlder (filteredSequence props timeRange departmentFilter now l).
Proof.
  unfold filteredSequence. cbv zeta.
  destruct (departmentFilterActive departmentFilter).
  - apply filter_StronglySorted, sortWith_byDate_StronglySorted.
  - apply sortWith_byDate_StronglySorted.
Qed.

Lemma filteredSequence_elem_of_timeStage timeRange departmentFilter now l t :
  t ∈ filteredSequence props timeRange departmentFilter now l ->
  t ∈ timeStage timeRange now l.
Proof.
  unfold filteredSequence. cbv zeta. intros H.
  assert (Hs : t ∈ sortWith byDateDescending (timeStage timeRange now l)).
  { destruct (departmentFilterActive departmentFilter); [| exact H].
    apply filter_elem_of in H. tauto. }
  now rewrite sortWith_Permutation in Hs.
Qed.

Lemma filteredSequence_idempotent timeRange departmentFilter now l :
  filteredSequence props timeRange departmentFilter now
    (filteredSequence props timeRange departmentFilter now l)
  = filteredSequence props timeRange departmentFilter now l.
Proof.
  set (l1 := filteredSequence props timeRange departmentFilter now l).
  pose proof (filteredSequence_StronglySorted timeRange departmentFilter now l) as Hs.
  fold l1 in Hs.
  unfold filteredSequence at 1. cbv zeta.
  rewrite (timeStage_fixpoint timeRange now l l1)
    by (intros t; apply filteredSequence_elem_of_timeStage).
  rewrite (StronglySorted_notOlder_sortWith l1 Hs).
  destruct (departmentFilterActive departmentFilter) eqn:E; [| reflexivity].
  subst l1. unfold filteredSequence. cbv zeta. rewrite E.
  apply filter_idempotent.
Qed.

End Sequence.

(** ** Department resolution *)

Section Resolution.

Context {num : Type}.

(** C1, as amended: when [departmentName] is present and not the empty
    string, the effective department is [departmentName] whatever the
    lookup returns; when it is absent or the empty string, the effective
    department is the lookup's result for the category, absent when the
    lookup finds nothing.  No trimming takes place: a [departmentName] made
    of white space only is returned as it is. *)
Theorem effectiveDepartment_precedence
  (props : StatisticsTableProps) (lookup : string -> option string)
  (T : Transaction num) :
  getCategoryDepartment props = Some lookup ->
  match departmentName T with
  | Some s =>
      if JS.truthy s
      then effectiveDepartment props T = Some s
      else effectiveDepartment props T = lookup (category T)
  | None => effectiveDepartment props T = lookup (category T)
  end.
Proof.
  intros Hl. unfold effectiveDepartment, categoryDepartment, JS.or. rewrite Hl.
  destruct (departmentName T) as [s|]; [| reflexivity].
  destruct (JS.truthy s); reflexivity.
Qed.

(** Without a lookup the fallback is absent. *)
Lemma effectiveDepartment_no_lookup (props : StatisticsTableProps) (T : Transaction num) :
  getCategoryDepartment props = None ->
  departmentName T = None \/ departmentName T = Some "" ->
  effectiveDepartment props T = None.
Proof.
  intros Hl [H | H]; unfold effectiveDepartment, categoryDepartment, JS.or;
    rewrite Hl, H; reflexivity.
Qed.

End Resolution.

Lemma effectiveDepartment_precedence_witness :
  effectiveDepartment Examples.propsSales Examples.salesOverride = Some "Sales".
Proof.
  exact (effectiveDepartment_precedence Examples.propsSales Examples.lookupSales
           Examples.salesOverride eq_refl).
Defined.

(** C1, as stated, fails: a [departmentName] of one space is empty after
    trimming, yet it is the effective department, not the lookup's result. *)
Lemma effectiveDepartment_trimming_counterexample :
  ~ (forall (props : StatisticsTableProps) (lookup : string -> option string)
            (T : Transaction Z),
        getCategoryDepartment props = Some lookup ->
        match departmentName T with
        | Some s =>
            if JS.truthy (JS.trim s)
            then effectiveDepartment props T = Some s
            else effectiveDepartment props T = lookup (category T)
        | None => effectiveDepartment props T = lookup (category T)
        end).
Proof.
  intros H.
  specialize (H Examples.propsSales Examples.lookupSales Examples.blankOverride eq_refl).
  vm_compute in H. discriminate H.
Qed.

(** ** The claims on the filter pipeline *)

Section PipelineClaims.

Context {num : Type} {numOps : Number num}.

Implicit Types (h : Store num) (t : Transaction num) (l : list (Transaction num)).

Variable props : StatisticsTableProps.

Lemma isWithinInterval_ordered (time : Z) (s e : Date) :
  getTime s <= getTime e ->
  isWithinInterval time s e = true <-> getTime s <= time <= getTime e.
Proof.
  intros Hle. unfold isWithinInterval. cbv zeta.
  rewrite Z.min_l, Z.max_r by lia.
  rewrite andb_true_iff, Z.geb_le, Z.leb_le. tauto.
Qed.

Lemma departmentFilterActive_all : departmentFilterActive "all" = false.
Proof. reflexivity. Qed.

Lemma timeRangeBounds_unrecognized (timeRange : string) (now : Date) :
  unrecognized timeRange -> timeRangeBounds timeRange now = (None, None).
Proof.
  intros (H1 & H2 & H3 & H4 & H5). unfold timeRangeBounds.
  apply String.eqb_neq in H1, H2, H3, H4, H5.
  rewrite H1, H2, H3, H4, H5. reflexivity.
Qed.

(** The month in which [last3Months] and [last6Months] start lies [k]
    months before the month of [now]. *)
Lemma startOfMonth_subMonths_index (now : Date) (k : Z) :
  validDate now -> 0 < k < 12 ->
  let start := startOfMonth (subMonths now k) in
  12 * getFullYear start + getMonth start = 12 * getFullYear now + getMonth now - k
  /\ 0 <= getMonth start < 12 /\ getDate start = 1 /\ msWithinDay start = 0.
Proof.
  intros (Hm & _) Hk. cbv zeta. rewrite startOfMonth_subMonths by lia.
  cbn [getFullYear getMonth getDate msWithinDay].
  destruct (months_back (getMonth now) k Hm ltac:(lia)) as [(Hq & Hr & ?) | (Hq & Hr & ?)];
    rewrite Hq, Hr; lia.
Qed.

(** [lastMonth]: the calendar month before the month of [now]. *)
Lemma timeRangeBounds_lastMonth (now : Date) :
  validDate now ->
  let y := if getMonth now =? 0 then getFullYear now - 1 else getFullYear now in
  let m := if getMonth now =? 0 then 11 else getMonth now - 1 in
  timeRangeBounds "lastMonth" now
  = (Some (mkDate y m 1 0), Some (mkDate y m (getDaysInMonth y m) (msPerDay - 1))).
Proof.
  intros (Hm & _). cbv zeta.
  change (timeRangeBounds "lastMonth" now)
    with (Some (startOfMonth (subMonths now 1)), Some (endOfMonth (subMonths now 1))).
  rewrite startOfMonth_subMonths, endOfMonth_subMonths by lia. cbv zeta.
  destruct (getMonth now =? 0) eqn:E.
  - apply Z.eqb_eq in E. rewrite E. reflexivity.
  - apply Z.eqb_neq in E.
    destruct (months_back (getMonth now) 1 Hm ltac:(lia))
      as [(Hq & Hr & ?) | (Hq & Hr & ?)]; [| lia].
    rewrite Hq, Hr, Z.add_0_r. reflexivity.
Qed.

(** With no bound and no department filter every input transaction is in
    the result. *)
Lemma filteredElements_unbounded_elem_of (timeRange : string) (now : Date) h t :
  unrecognized timeRange ->
  t ∈ elementsOf h (transactions props) ->
  t ∈ filteredElements props timeRange "all" now h.
Proof.
  intros Hun Ht. rewrite filteredTransactions_elements.
  unfold filteredSequence, timeStage.
  rewrite (timeRangeBounds_unrecognized timeRange now) by assumption.
  cbv zeta. rewrite departmentFilterActive_all.
  now rewrite sortWith_Permutation.
Qed.

(** C5: the [switch] resolves [thisMonth] to the span of the month of
    [now], [lastMonth] to the span from the first to the last instant of
    the calendar month before it, [last3Months] and [last6Months] to the
    span from the start of the month 2, respectively 5, months back to the
    end of the month of [now], [thisYear] to the span of the year of [now];
    the start [k] months back is the first instant of the month that lies
    [k] months before the month of [now]; ["all"] and every token the
    [switch] does not know resolve to no bound, and then every transaction
    of the input is in the result. *)
Theorem timeRangeBounds_resolution (now : Date) :
  validDate now ->
  timeRangeBounds "thisMonth" now = (Some (startOfMonth now), Some (endOfMonth now))
  /\ (let y := if getMonth now =? 0 then getFullYear now - 1 else getFullYear now in
      let m := if getMonth now =? 0 then 11 else getMonth now - 1 in
      timeRangeBounds "lastMonth" now
      = (Some (mkDate y m 1 0),
         Some (mkDate y m (getDaysInMonth y m) (msPerDay - 1))))
  /\ timeRangeBounds "last3Months" now
     = (Some (startOfMonth (subMonths now 2)), Some (endOfMonth now))
  /\ timeRangeBounds "last6Months" now
     = (Some (startOfMonth (subMonths now 5)), Some (endOfMonth now))
  /\ timeRangeBounds "thisYear" now = (Some (startOfYear now), Some (endOfYear now))
  /\ (forall k, 0 < k < 12 ->
        let start := startOfMonth (subMonths now k) in
        12 * getFullYear start + getMonth start
        = 12 * getFullYear now + getMonth now - k
        /\ 0 <= getMonth start < 12 /\ getDate start = 1 /\ msWithinDay start = 0)
  /\ timeRangeBounds "all" now = (None, None)
  /\ (forall timeRange, unrecognized timeRange ->
        timeRangeBounds timeRange now = (None, None)
        /\ forall h t, t ∈ elementsOf h (transactions props) ->
                       t ∈ filteredElements props timeRange "all" now h).
Proof.
  intros Hnow.
  split; [reflexivity |].
  split; [now apply timeRangeBounds_lastMonth |].
  do 3 (split; [reflexivity |]).
  split; [intros k Hk; now apply startOfMonth_subMonths_index |].
  split; [reflexivity |].
  intros timeRange Hun.
  split; [now apply timeRangeBounds_unrecognized |].
  intros h t Ht. now apply filteredElements_unbounded_elem_of.
Qed.

(** C6: with the department filter ["all"], the result is sorted by date
    descending; when the range resolves to an interval, the ends of the
    interval are in order and the result holds exactly the input
    transactions dated from its start to its end, both included, so that a
    transaction dated [startOfMonth now] is kept under [thisMonth]; with
    the range ["all"] the result is a rearrangement of the input. *)
Theorem filteredTransactions_time_filter (timeRange : string) (now : Date) h :
  validDate now ->
  let result := filteredElements props timeRange "all" now h in
  let input := elementsOf h (transactions props) in
  StronglySorted notOlder result
  /\ match timeRangeBounds timeRange now with
     | (Some startDate, Some endDate) =>
         getTime startDate <= getTime endDate
         /\ Permutation result
              (List.filter
                 (fun t => (getTime startDate <=? date t) && (date t <=? getTime endDate))
                 input)
         /\ (forall t, t ∈ result <->
                       t ∈ input /\ getTime startDate <= date t <= getTime endDate)
     | _ => Permutation result input
     end
  /\ (timeRange = "thisMonth" ->
      forall t, t ∈ input -> date t = getTime (startOfMonth now) -> t ∈ result)
  /\ (timeRange = "all" -> Permutation result input).
Proof.
  intros Hnow. cbv zeta. rewrite filteredTransactions_elements.
  split; [apply filteredSequence_StronglySorted |].
  unfold filteredSequence, timeStage. cbv zeta.
  rewrite departmentFilterActive_all.
  split; [| split].
  - destruct (timeRangeBounds timeRange now) as [[s|] [e|]] eqn:Hb;
      try apply sortWith_Permutation.
    pose proof (timeRangeBounds_ordered timeRange now s e Hnow Hb) as Hle.
    assert (Hext : forall l,
      List.filter (fun t => isWithinInterval (date t) s e) l
      = List.filter (fun t => (getTime s <=? date t) && (date t <=? getTime e)) l).
    { intros l. apply List.filter_ext. intros t.
      unfold isWithinInterval. cbv zeta.
      rewrite Z.min_l, Z.max_r by lia. now rewrite Z.geb_leb. }
    split; [exact Hle | split].
    + rewrite sortWith_Permutation, Hext. reflexivity.
    + intros t. rewrite sortWith_Permutation, filter_elem_of.
      now rewrite isWithinInterval_ordered.
  - intros -> t Ht Hdate.
    change (timeRangeBounds "thisMonth" now)
      with (Some (startOfMonth now), Some (endOfMonth now)).
    rewrite sortWith_Permutation, filter_elem_of. split; [exact Ht |].
    assert (Hb : timeRangeBounds "thisMonth" now
                 = (Some (startOfMonth now), Some (endOfMonth now))) by reflexivity.
    pose proof (timeRangeBounds_ordered _ _ _ _ Hnow Hb) as Hle.
    apply isWithinInterval_ordered; lia.
  - intros ->. change (timeRangeBounds "all" now) with (@None Date, @None Date).
    apply sortWith_Permutation.
Qed.

(** C7: running the pipeline again, with the same range, department
    filter and [now], on the array it has returned gives an array with the
    same elements in the same order. *)
Theorem filteredTransactions_idempotent (timeRange departmentFilter : string)
  (now : Date) h :
  let first := filteredTransactions props timeRange departmentFilter now in
  let result := resultOf first h in
  let h' := storeAfter first h in
  filteredElements (withTransactions result props) timeRange departmentFilter now h'
  = elementsOf h' result.
Proof.
  cbv zeta. rewrite filteredTransactions_elements.
  cbn [withTransactions transactions].
  change (elementsOf (storeAfter (filteredTransactions props timeRange departmentFilter now) h)
            (resultOf (filteredTransactions props timeRange departmentFilter now) h))
    with (filteredElements props timeRange departmentFilter now h).
  rewrite filteredTransactions_elements.
  apply (filteredSequence_idempotent props).
Qed.

End PipelineClaims.

Lemma midMarch2024_valid : validDate Examples.midMarch2024.
Proof. unfold validDate, msPerDay. cbn. lia. Qed.

Lemma elementsOf_storeOf (l : list (Transaction Z)) :
  elementsOf (Examples.storeOf l) 0%nat = l.
Proof. unfold elementsOf, Examples.storeOf. apply lookup_total_singleton_eq. Qed.

Lemma timeRangeBounds_resolution_witness :
  validDate Examples.midMarch2024
  /\ timeRangeBounds "lastMonth" Examples.midMarch2024
     = (Some (mkDate 2024 1 1 0), Some (mkDate 2024 1 29 86399999)).
Proof.
  assert (H : validDate Examples.midMarch2024)
    by (unfold validDate, msPerDay; cbn; lia).
  split; [exact H |].
  exact (proj1 (proj2 (timeRangeBounds_resolution (num := Z)
                         Examples.propsSales Examples.midMarch2024 H))).
Defined.

Lemma filteredTransactions_time_filter_witness :
  validDate Examples.midMarch2024
  /\ Examples.atMonthStart
     ∈ filteredElements Examples.propsSales "thisMonth" "all" Examples.midMarch2024
         (Examples.storeOf [Examples.older; Examples.atMonthStart]).
Proof.
  assert (H : validDate Examples.midMarch2024)
    by (unfold validDate, msPerDay; cbn; lia).
  split; [exact H |].
  apply (proj1 (proj2 (proj2 (filteredTransactions_time_filter
                                Examples.propsSales "thisMonth" Examples.midMarch2024
                                (Examples.storeOf [Examples.older; Examples.atMonthStart])
                                H))) eq_refl).
  - rewrite elementsOf_storeOf. right. left.
  - reflexivity.
Defined.

(** C2: at this input the code rewrites the array it is given.  With the
    range ["all"] and the department filter ["all"], the array of
    [transactions], holding a transaction of date 10 before one of date 20,
    is the array returned, and it holds the two in the other order. *)
Theorem filteredTransactions_sorts_input_in_place :
  let h := Examples.storeOf [Examples.older; Examples.newer] in
  let run :=
    filteredTransactions Examples.propsSales "all" "all" Examples.midMarch2024 in
  elementsOf h (transactions Examples.propsSales) = [Examples.older; Examples.newer]
  /\ resultOf run h = transactions Examples.propsSales
  /\ elementsOf (storeAfter run h) (transactions Examples.propsSales)
     = [Examples.newer; Examples.older].
Proof. vm_compute. repeat split. Qed.

(** ** The department filter *)

Section DepartmentFilter.

Context {num : Type}.

Implicit Types (h : Store num) (t : Transaction num).

Variable props : StatisticsTableProps.

Lemma departmentMatches_spec (departmentFilter : string) t :
  departmentFilter <> "" ->
  departmentMatches props departmentFilter t = true
  <-> effectiveDepartment props t = Some departmentFilter.
Proof.
  intros Hne. unfold departmentMatches. cbv zeta.
  destruct (effectiveDepartment props t) as [d|]; simpl.
  - rewrite andb_true_iff, String.eqb_eq, truthy_true. split.
    + intros [_ ->]. reflexivity.
    + intros [= ->]. auto.
  - split; discriminate.
Qed.

(** For a non-empty filter value the truthiness test adds nothing to the
    comparison. *)
Lemma departmentMatches_strictEq (departmentFilter : string) t :
  departmentFilter <> "" ->
  departmentMatches props departmentFilter t
  = JS.strictEq (effectiveDepartment props t) departmentFilter.
Proof.
  intros Hne. unfold departmentMatches. cbv zeta.
  destruct (effectiveDepartment props t) as [d|]; simpl; [| reflexivity].
  destruct (String.eqb d departmentFilter) eqn:E; [| apply andb_false_r].
  apply String.eqb_eq in E. subst d.
  apply truthy_true in Hne. rewrite Hne. reflexivity.
Qed.

Lemma departmentFilterActive_true (departmentFilter : string) :
  departmentFilter <> "" -> departmentFilter <> "all" ->
  departmentFilterActive departmentFilter = true.
Proof.
  intros H1 H2. unfold departmentFilterActive.
  apply truthy_true in H1. apply String.eqb_neq in H2. now rewrite H1, H2.
Qed.

(** With an active filter the result is the unfiltered result restricted
    by [departmentMatches]. *)
Lemma filteredElements_department (timeRange departmentFilter : string)
  (now : Date) h :
  departmentFilter <> "" -> departmentFilter <> "all" ->
  filteredElements props timeRange departmentFilter now h
  = List.filter (departmentMatches props departmentFilter)
      (filteredElements props timeRange "all" now h).
Proof.
  intros Hne Hall. rewrite !filteredTransactions_elements.
  unfold filteredSequence. cbv zeta.
  rewrite departmentFilterActive_all, departmentFilterActive_true by assumption.
  reflexivity.
Qed.

Lemma filteredElements_department_elem_of (timeRange departmentFilter : string)
  (now : Date) h t :
  departmentFilter <> "" -> departmentFilter <> "all" ->
  t ∈ filteredElements props timeRange departmentFilter now h
  <-> t ∈ filteredElements props timeRange "all" now h
      /\ effectiveDepartment props t = Some departmentFilter.
Proof.
  intros Hne Hall.
  rewrite filteredElements_department, filter_elem_of, departmentMatches_spec
    by assumption.
  reflexivity.
Qed.

(** C9, as amended: when the department filter is neither the empty string
    nor ["all"], the result is the result for ["all"] restricted, in its
    order, to the transactions whose effective department is the filter
    value, compared as it is (no trimming, no case folding); a transaction
    whose effective department is absent, in particular one with no
    [departmentName] of its own (absent or empty) whose category is looked
    up in vain, is not in the result.  The empty string as filter value
    gives the result for ["all"].  The pipeline is a total function: no
    input makes it fail. *)
Theorem department_filter_semantics (timeRange departmentFilter : string)
  (now : Date) h :
  departmentFilter <> "" -> departmentFilter <> "all" ->
  let result := filteredElements props timeRange departmentFilter now h in
  let unfiltered := filteredElements props timeRange "all" now h in
  result = List.filter
             (fun t => JS.strictEq (effectiveDepartment props t) departmentFilter)
             unfiltered
  /\ (forall t, t ∈ result <->
                t ∈ unfiltered /\ effectiveDepartment props t = Some departmentFilter)
  /\ (forall t, effectiveDepartment props t = None -> t ∉ result)
  /\ (forall t, departmentName t = None \/ departmentName t = Some "" ->
                categoryDepartment props (category t) = None -> t ∉ result)
  /\ filteredElements props timeRange "" now h = unfiltered.
Proof.
  intros Hne Hall. cbv zeta.
  assert (Habsent : forall t, effectiveDepartment props t = None ->
    t ∉ filteredElements props timeRange departmentFilter now h).
  { intros t Hnone Hin.
    apply filteredElements_department_elem_of in Hin; [| assumption ..].
    destruct Hin as [_ Hin]. congruence. }
  split; [| split; [| split; [exact Habsent | split]]].
  - rewrite filteredElements_department by assumption.
    apply List.filter_ext. intros t. now apply departmentMatches_strictEq.
  - intros t. now apply filteredElements_department_elem_of.
  - intros t Hown Hcat. apply Habsent.
    unfold effectiveDepartment, JS.or. destruct Hown as [-> | ->]; exact Hcat.
  - rewrite !filteredTransactions_elements. reflexivity.
Qed.

End DepartmentFilter.

Lemma department_filter_semantics_witness :
  let h := Examples.storeOf [Examples.older; Examples.salesOverride] in
  "Sales" <> "" /\ "Sales" <> "all"
  /\ filteredElements Examples.propsDangling "all" "Sales" Examples.midMarch2024 h
     = List.filter
         (fun t => JS.strictEq (effectiveDepartment Examples.propsDangling t) "Sales")
         (filteredElements Examples.propsDangling "all" "all" Examples.midMarch2024 h)
  /\ Examples.older
     ∉ filteredElements Examples.propsDangling "all" "Sales" Examples.midMarch2024 h.
Proof.
  cbv zeta.
  assert (H1 : "Sales" <> "") by discriminate.
  assert (H2 : "Sales" <> "all") by discriminate.
  pose proof (department_filter_semantics Examples.propsDangling "all" "Sales"
                Examples.midMarch2024
                (Examples.storeOf [Examples.older; Examples.salesOverride])
                H1 H2) as H.
  cbv zeta in H.
  refine (conj H1 (conj H2 (conj (proj1 H) _))).
  exact (proj1 (proj2 (proj2 H)) Examples.older eq_refl).
Defined.

(** C9, as stated, fails twice.  With the empty string as filter value,
    which is not ["all"], a transaction with no effective department is
    retained; and under the filter ["Sales"] a transaction whose category
    is looked up in vain is retained when its own [departmentName] is
    ["Sales"]. *)
Lemma department_filter_counterexample :
  ~ (forall (props : StatisticsTableProps) (timeRange departmentFilter : string)
            (now : Date) (h : Store Z) (t : Transaction Z),
        departmentFilter <> "all" ->
        t ∈ filteredElements props timeRange departmentFilter now h ->
        effectiveDepartment props t = Some departmentFilter)
  /\ ~ (forall (props : StatisticsTableProps) (timeRange departmentFilter : string)
               (now : Date) (h : Store Z) (t : Transaction Z),
          departmentFilter <> "all" -> departmentFilter <> "" ->
          categoryDepartment props (category t) = None ->
          t ∉ filteredElements props timeRange departmentFilter now h).
Proof.
  split; intros H.
  - specialize (H Examples.propsDangling "all" "" Examples.midMarch2024
                  (Examples.storeOf [Examples.older]) Examples.older).
    assert (Hin : Examples.older
                  ∈ filteredElements Examples.propsDangling "all" ""
                      Examples.midMarch2024 (Examples.storeOf [Examples.older])).
    { replace (filteredElements Examples.propsDangling "all" ""
                 Examples.midMarch2024 (Examples.storeOf [Examples.older]))
        with [Examples.older] by (vm_compute; reflexivity).
      left. }
    specialize (H ltac:(discriminate) Hin). vm_compute in H. discriminate H.
  - apply (H Examples.propsDangling "all" "Sales" Examples.midMarch2024
             (Examples.storeOf [Examples.salesOverride]) Examples.salesOverride);
      try discriminate; try reflexivity.
    replace (filteredElements Examples.propsDangling "all" "Sales"
               Examples.midMarch2024 (Examples.storeOf [Examples.salesOverride]))
      with [Examples.salesOverride] by (vm_compute; reflexivity).
    left.
Qed.

(** ** Totals *)

Section TotalsFacts.

Context {num : Type} {numOps : Number num}.

Implicit Types (t : Transaction num) (l : list (Transaction num))
  (result : Totals (num := num)) (b : Bucket (num := num)) (c : string).

Lemma getBucket_app result result' c :
  getBucket (result ++ result') c
  = match getBucket result c with
    | Some b => Some b
    | None => getBucket result' c
    end.
Proof.
  induction result as [|[k b] result IH]; simpl; [reflexivity |].
  destruct (String.eqb k c); [reflexivity | exact IH].
Qed.

Lemma getBucket_updateBucket_same f result c :
  getBucket (updateBucket f c result) c = f <$> getBucket result c.
Proof.
  induction result as [|[k b] result IH]; simpl; [reflexivity |].
  destruct (String.eqb k c) eqn:E; simpl; rewrite E; [reflexivity | exact IH].
Qed.

Lemma getBucket_updateBucket_other f result c c' :
  c' <> c -> getBucket (updateBucket f c result) c' = getBucket result c'.
Proof.
  intros Hne. induction result as [|[k b] result IH]; simpl; [reflexivity |].
  destruct (String.eqb k c) eqn:E; simpl.
  - apply String.eqb_eq in E. subst k.
    destruct (String.eqb c c') eqn:E'; [| reflexivity].
    apply String.eqb_eq in E'. congruence.
  - destruct (String.eqb k c'); [reflexivity | exact IH].
Qed.

Lemma keys_updateBucket f result c :
  map fst (updateBucket f c result) = map fst result.
Proof.
  induction result as [|[k b] result IH]; simpl; [reflexivity |].
  destruct (String.eqb k c); simpl; [reflexivity | now rewrite IH].
Qed.

Lemma getBucket_keys result c :
  existsb (String.eqb c) (map fst result) = true <-> is_Some (getBucket result c).
Proof.
  induction result as [|[k b] result IH]; simpl.
  - split; [discriminate | intros [x Hx]; discriminate].
  - rewrite (String.eqb_sym c k). destruct (String.eqb k c); simpl; [| exact IH].
    split; eauto.
Qed.

Lemma getBucket_totalsStep_same result t :
  getBucket (totalsStep result t) (currency t)
  = Some (accumulate t (default (mkBucket zero zero) (getBucket result (currency t)))).
Proof.
  unfold totalsStep. cbv zeta. rewrite getBucket_updateBucket_same.
  destruct (getBucket result (currency t)) as [b|] eqn:E.
  - rewrite E. reflexivity.
  - rewrite getBucket_app, E. simpl. rewrite String.eqb_refl. reflexivity.
Qed.

Lemma getBucket_totalsStep_other result t c :
  c <> currency t -> getBucket (totalsStep result t) c = getBucket result c.
Proof.
  intros Hne. unfold totalsStep. cbv zeta.
  rewrite getBucket_updateBucket_other by exact Hne.
  destruct (getBucket result (currency t)); [reflexivity |].
  rewrite getBucket_app. destruct (getBucket result c); [reflexivity |].
  simpl. destruct (String.eqb (currency t) c) eqn:E; [| reflexivity].
  apply String.eqb_eq in E. congruence.
Qed.

Lemma keys_totalsStep result t :
  map fst (totalsStep result t)
  = if existsb (String.eqb (currency t)) (map fst result)
    then map fst result
    else map fst result ++ [currency t].
Proof.
  unfold totalsStep. cbv zeta. rewrite keys_updateBucket.
  destruct (existsb (String.eqb (currency t)) (map fst result)) eqn:E.
  - apply getBucket_keys in E. destruct E as [b ->]. reflexivity.
  - destruct (getBucket result (currency t)) as [b|] eqn:Eb.
    + assert (H : is_Some (getBucket result (currency t))) by eauto.
      apply getBucket_keys in H. congruence.
    + now rewrite map_app.
Qed.

(** The bucket of a currency after the loop, from the bucket before it. *)
Lemma getBucket_fold l : forall result c,
  getBucket (fold_left totalsStep l result) c
  = match getBucket result c with
    | Some b => Some (bucketAfter c l b)
    | None => if occurs c l then Some (bucketAfter c l (mkBucket zero zero)) else None
    end.
Proof.
  induction l as [|t l IH]; intros result c; simpl.
  - destruct (getBucket result c); reflexivity.
  - rewrite IH. destruct (String.eqb (currency t) c) eqn:E.
    + apply String.eqb_eq in E. subst c. rewrite getBucket_totalsStep_same.
      unfold bucketAfter. simpl.
      destruct (getBucket result (currency t)); reflexivity.
    + assert (Hne : c <> currency t)
        by (intros ->; rewrite String.eqb_refl in E; discriminate).
      rewrite getBucket_totalsStep_other by exact Hne.
      unfold bucketAfter. simpl. rewrite ?E.
      destruct (getBucket result c); reflexivity.
Qed.

Lemma amountsOf_cons ty c t l :
  amountsOf ty c (t :: l)
  = if sameType (type t) ty && String.eqb (currency t) c
    then amount t :: amountsOf ty c l
    else amountsOf ty c l.
Proof.
  unfold amountsOf. simpl.
  destruct (sameType (type t) ty && String.eqb (currency t) c); reflexivity.
Qed.

Lemma bucketAfter_cons c t l b :
  bucketAfter c (t :: l) b
  = bucketAfter c l (if String.eqb (currency t) c then accumulate t b else b).
Proof. reflexivity. Qed.

(** The two accumulators of a bucket are the sums of the amounts. *)
Lemma bucketAfter_sums c l : forall b,
  bucketAfter c l b
  = mkBucket (sumFrom (income b) (amountsOf Income c l))
             (sumFrom (expense b) (amountsOf Expense c l)).
Proof.
  induction l as [|t l IH]; intros b.
  - destruct b; reflexivity.
  - rewrite bucketAfter_cons, !amountsOf_cons.
    destruct (String.eqb (currency t) c).
    + rewrite IH. unfold accumulate. destruct (type t); reflexivity.
    + rewrite !andb_false_r. apply IH.
Qed.

Lemma occurs_elem_of c l : occurs c l = true <-> c ∈ map currency l.
Proof.
  unfold occurs. induction l as [|t l IH]; simpl.
  - split; [discriminate | intros H; inversion H].
  - rewrite orb_true_iff, IH, String.eqb_eq, elem_of_cons. split; intros [H | H]; auto.
Qed.

Lemma getBucket_totals l c :
  getBucket (totals l) c
  = if occurs c l
    then Some (mkBucket (sumFrom zero (amountsOf Income c l))
                        (sumFrom zero (amountsOf Expense c l)))
    else None.
Proof.
  unfold totals. rewrite getBucket_fold. simpl.
  destruct (occurs c l); [| reflexivity].
  now rewrite bucketAfter_sums.
Qed.

End TotalsFacts.

Section FirstOccurrences.

Lemma filter_filter_and {A : Type} (p q : A -> bool) (l : list A) :
  List.filter p (List.filter q l) = List.filter (fun x => q x && p x) l.
Proof.
  induction l as [|x l IH]; simpl; [reflexivity |].
  destruct (q x); simpl; [| exact IH].
  destruct (p x); now rewrite IH.
Qed.

Lemma filter_true {A : Type} (l : list A) : List.filter (fun _ => true) l = l.
Proof. induction l as [|x l IH]; simpl; [reflexivity | now rewrite IH]. Qed.

Lemma firstOccurrences_elem_of (l : list string) (c : string) :
  c ∈ firstOccurrences l <-> c ∈ l.
Proof.
  induction l as [|x l IH]; simpl; [reflexivity |].
  rewrite !elem_of_cons, filter_elem_of, IH, negb_true_iff, String.eqb_neq.
  destruct (String.eqb_spec c x); tauto.
Qed.

Lemma filter_NoDup {A : Type} (p : A -> bool) (l : list A) :
  NoDup l -> NoDup (List.filter p l).
Proof.
  induction l as [|x l IH]; simpl; [auto |].
  rewrite NoDup_cons. intros [Hx Hl].
  destruct (p x); [| now apply IH].
  apply NoDup_cons. split; [| now apply IH].
  rewrite filter_elem_of. tauto.
Qed.

Lemma firstOccurrences_NoDup (l : list string) : NoDup (firstOccurrences l).
Proof.
  induction l as [|x l IH]; simpl; [constructor |].
  apply NoDup_cons. split.
  - rewrite filter_elem_of, negb_true_iff, String.eqb_neq. tauto.
  - now apply filter_NoDup.
Qed.

End FirstOccurrences.

Section TotalsClaim.

Context {num : Type} {numOps : Number num}.

Implicit Types (t : Transaction num) (l : list (Transaction num))
  (result : Totals (num := num)) (c : string).

(** The keys after the loop: those before it, then the new currencies at
    their first occurrence. *)
Lemma keys_fold l : forall result,
  map fst (fold_left totalsStep l result)
  = map fst result
    ++ List.filter (fun c => negb (existsb (String.eqb c) (map fst result)))
         (firstOccurrences (map currency l)).
Proof.
  induction l as [|t l IH]; intros result; simpl.
  - now rewrite app_nil_r.
  - rewrite IH, keys_totalsStep.
    destruct (existsb (String.eqb (currency t)) (map fst result)) eqn:E; simpl.
    + f_equal. rewrite filter_filter_and. apply List.filter_ext. intros y.
      destruct (String.eqb_spec y (currency t)) as [-> | Hne]; simpl; [| reflexivity].
      now rewrite E.
    + rewrite <- app_assoc. simpl. f_equal. f_equal.
      rewrite filter_filter_and. apply List.filter_ext. intros y.
      rewrite existsb_app. simpl. rewrite orb_false_r, negb_orb. apply andb_comm.
Qed.

Lemma keys_totals l : map fst (totals l) = firstOccurrences (map currency l).
Proof. unfold totals. rewrite keys_fold. simpl. apply filter_true. Qed.

Lemma updateBucket_app_absent f c result result' :
  getBucket result c = None ->
  updateBucket f c (result ++ result') = result ++ updateBucket f c result'.
Proof.
  induction result as [|[k b] result IH]; simpl; [reflexivity |].
  destruct (String.eqb k c); [discriminate |].
  intros H. now rewrite IH.
Qed.

Lemma amountsOf_app ty c l l' :
  amountsOf ty c (l ++ l') = amountsOf ty c l ++ amountsOf ty c l'.
Proof. unfold amountsOf. now rewrite List.filter_app, map_app. Qed.

Lemma amountsOf_absent ty c l : occurs c l = false -> amountsOf ty c l = [].
Proof.
  unfold occurs. induction l as [|t l IH]; simpl; [reflexivity |].
  intros H. apply orb_false_iff in H. destruct H as [Ht Hl].
  rewrite amountsOf_cons, Ht, andb_false_r. now apply IH.
Qed.

Lemma occurs_app c l l' : occurs c (l ++ l') = occurs c l || occurs c l'.
Proof. unfold occurs. apply existsb_app. Qed.

Lemma occurs_false c l : c ∉ map currency l -> occurs c l = false.
Proof.
  intros H. destruct (occurs c l) eqn:E; [| reflexivity].
  apply occurs_elem_of in E. contradiction.
Qed.

(** C8: for every list of transactions, a currency that occurs in it has
    a bucket whose [income] is the sum, from zero and in the order of the
    list, of the amounts of its income transactions and whose [expense] is
    that of its other transactions; a currency that does not occur has no
    bucket; the buckets stand in the order in which their currencies first
    occur, one per currency; and a transaction in a currency not seen yet,
    wherever it is placed, gets a bucket of its own holding its amount
    alone, placed last when the transaction is, while the bucket of every
    other currency is as without it. *)
Theorem totals_correct l :
  (forall c, c ∈ map currency l ->
     getBucket (totals l) c
     = Some (mkBucket (sumFrom zero (amountsOf Income c l))
                      (sumFrom zero (amountsOf Expense c l))))
  /\ (forall c, c ∉ map currency l -> getBucket (totals l) c = None)
  /\ map fst (totals l) = firstOccurrences (map currency l)
  /\ NoDup (map fst (totals l))
  /\ (forall t, currency t ∉ map currency l ->
        totals (l ++ [t])
        = totals l ++ [(currency t, accumulate t (mkBucket zero zero))])
  /\ (forall l1 l2 t, l = l1 ++ l2 -> currency t ∉ map currency l ->
        getBucket (totals (l1 ++ t :: l2)) (currency t)
        = Some (accumulate t (mkBucket zero zero))
        /\ forall c, c <> currency t ->
             getBucket (totals (l1 ++ t :: l2)) c = getBucket (totals l) c).
Proof.
  split; [| split; [| split; [| split; [| split]]]].
  - intros c Hc. rewrite getBucket_totals.
    apply occurs_elem_of in Hc. now rewrite Hc.
  - intros c Hc. rewrite getBucket_totals. now rewrite occurs_false.
  - apply keys_totals.
  - rewrite keys_totals. apply firstOccurrences_NoDup.
  - intros t Ht. unfold totals. rewrite fold_left_app. simpl.
    fold (totals l). unfold totalsStep. cbv zeta.
    assert (Hnone : getBucket (totals l) (currency t) = None)
      by (rewrite getBucket_totals; now rewrite occurs_false).
    rewrite Hnone, updateBucket_app_absent by exact Hnone.
    simpl. now rewrite String.eqb_refl.
  - intros l1 l2 t -> Ht.
    apply occurs_false in Ht. rewrite occurs_app in Ht.
    apply orb_false_iff in Ht. destruct Ht as [H1 H2].
    split.
    + rewrite getBucket_totals, occurs_app. simpl.
      rewrite String.eqb_refl, orb_true_r.
      rewrite !amountsOf_app, !amountsOf_cons, String.eqb_refl, !andb_true_r.
      rewrite !(amountsOf_absent _ _ l1 H1), !(amountsOf_absent _ _ l2 H2).
      unfold accumulate. destruct (type t); reflexivity.
    + intros c Hc. rewrite !getBucket_totals, !occurs_app. simpl.
      rewrite !amountsOf_app, !amountsOf_cons.
      assert (E : String.eqb (currency t) c = false)
        by (apply String.eqb_neq; congruence).
      rewrite E, !andb_false_r. reflexivity.
Qed.

End TotalsClaim.

(** The aggregation of the specification's example: 100 in and 40 out in
    PLN, then 5 in in USD. *)
Example totals_PLN_USD :
  totals [Examples.older; Examples.newer]
  = [("PLN", mkBucket 100 40)]
  /\ totals [Examples.older; Examples.newer; Examples.usd]
     = [("PLN", mkBucket 100 40); ("USD", mkBucket 5 0)].
Proof. split; reflexivity. Qed.

(** ** The department editor *)

Section Editor.

Context {num : Type}.

Implicit Types (st : EditorState) (x y : Transaction num).

Variable props : StatisticsTableProps.

(** Starting an edit selects the transaction and fills the draft with its
    effective department, the empty string when there is none. *)
Lemma startEdit_draft y st :
  editingId (startEdit props y st) = Some (id y)
  /\ editingDept (startEdit props y st)
     = default "" (effectiveDepartment props y).
Proof.
  split; [reflexivity |].
  unfold startEdit, effectiveDepartment, categoryDepartment, JS.or. simpl.
  destruct (departmentName y) as [s|]; [destruct (JS.truthy s) eqn:E |];
    rewrite ?E; try reflexivity;
    destruct (getCategoryDepartment props) as [lookup|]; try reflexivity;
    destruct (lookup (category y)) as [d|]; try reflexivity;
    destruct d; reflexivity.
Qed.

(** Starting an edit leaves the flag as it finds it. *)
Lemma startEdit_flag y st :
  applyToCategory (startEdit props y st) = applyToCategory st.
Proof. reflexivity. Qed.

(** C3: the flag set during an edit session survives the commit and the
    start of the next session.  After [startEdit], ticking the box and
    [commit], the editor is idle; a [startEdit] on any transaction then
    opens a session whose flag is [true], not [false]. *)
Theorem startEdit_keeps_flag_after_commit x y st :
  let committed :=
    snd (commit props x (toggleApplyToCategory true (startEdit props x st))) in
  editingId committed = None
  /\ editingId (startEdit props y committed) = Some (id y)
  /\ applyToCategory (startEdit props y committed) = true.
Proof. cbv zeta. repeat split. Qed.

(** After a cancel, and from the initial state, the flag is [false]. *)
Lemma startEdit_flag_after_cancel y st :
  applyToCategory (startEdit props y (snd (cancel st))) = false
  /\ applyToCategory (startEdit props y initialEditor) = false.
Proof. split; reflexivity. Qed.

Lemma trimmedOrUndefined_spec (draft : string) :
  trimmedOrUndefined draft
  = if String.eqb (JS.trim draft) "" then None else Some (JS.trim draft).
Proof.
  unfold trimmedOrUndefined, JS.or. destruct (JS.trim draft); reflexivity.
Qed.

(** The calls of [commit], whichever collaborators are supplied. *)
Lemma commit_calls x st :
  fst (commit props x st)
  = (if updateTransaction props
     then [CallUpdateTransaction (id x) (trimmedOrUndefined (editingDept st))]
     else [])
    ++ (if applyToCategory st && updateCategory props
        then [CallUpdateCategory (category x) (getCategoryName props (category x))
                (trimmedOrUndefined (editingDept st))]
        else []).
Proof. reflexivity. Qed.

(** C4: with both collaborators supplied, [commit] calls the transaction
    update with [departmentName] the trimmed draft, or [undefined] when the
    trimmed draft is empty; it then calls the category update exactly when
    the flag is set, with the same value, the category id of the
    transaction and the name [getCategoryName] gives that category; and it
    leaves the editor idle.  [cancel] makes no call and leaves the editor
    idle. *)
Theorem commit_cancel_calls x st :
  updateTransaction props = true ->
  updateCategory props = true ->
  let value :=
    if String.eqb (JS.trim (editingDept st)) "" then None
    else Some (JS.trim (editingDept st)) in
  fst (commit props x st)
  = CallUpdateTransaction (id x) value
    :: (if applyToCategory st
        then [CallUpdateCategory (category x) (getCategoryName props (category x)) value]
        else [])
  /\ editingId (snd (commit props x st)) = None
  /\ fst (cancel st) = []
  /\ editingId (snd (cancel st)) = None.
Proof.
  intros Hut Huc. cbv zeta.
  rewrite commit_calls, Hut, Huc, andb_true_r, trimmedOrUndefined_spec.
  repeat split.
Qed.

End Editor.

Lemma commit_cancel_calls_witness :
  let st := toggleApplyToCategory true
              (updateDraft " Sales "
                 (startEdit Examples.propsSales Examples.older initialEditor)) in
  updateTransaction Examples.propsSales = true
  /\ updateCategory Examples.propsSales = true
  /\ fst (commit Examples.propsSales Examples.older st)
     = [CallUpdateTransaction "t1" (Some "Sales");
        CallUpdateCategory "travel" "travel" (Some "Sales")].
Proof.
  cbv zeta. split; [reflexivity | split; [reflexivity |]].
  exact (proj1 (commit_cancel_calls Examples.propsSales Examples.older
                  (toggleApplyToCategory true
                     (updateDraft " Sales "
                        (startEdit Examples.propsSales Examples.older initialEditor)))
                  eq_refl eq_refl)).
Defined.

(** Clearing: an empty draft on a transaction that has an override, the
    flag not set, calls the transaction update with [undefined] only. *)
Example commit_clears_override :
  fst (commit Examples.propsSales Examples.salesOverride
         (updateDraft "" (startEdit Examples.propsSales Examples.salesOverride
                            initialEditor)))
  = [CallUpdateTransaction "t7" None].
Proof. reflexivity. Qed.

(** ** Available departments *)

Section Departments.

Context {num : Type}.

Implicit Types (h : Store num) (t : Transaction num) (l : list (Transaction num))
  (set : list string).

Variable props : StatisticsTableProps.

Lemma existsb_eqb_elem_of (x : string) set :
  existsb (String.eqb x) set = true <-> x ∈ set.
Proof.
  induction set as [|y set IH]; simpl.
  - split; [discriminate | intros H; inversion H].
  - rewrite orb_true_iff, IH, String.eqb_eq, elem_of_cons. reflexivity.
Qed.

Lemma Set_add_elem_of (x y : string) set :
  y ∈ Set_add x set <-> y = x \/ y ∈ set.
Proof.
  unfold Set_add. destruct (existsb (String.eqb x) set) eqn:E.
  - apply existsb_eqb_elem_of in E. split; [auto | intros [-> | H]; assumption].
  - rewrite elem_of_app, list_elem_of_singleton. tauto.
Qed.

Lemma Set_add_NoDup (x : string) set : NoDup set -> NoDup (Set_add x set).
Proof.
  intros Hnd. unfold Set_add. destruct (existsb (String.eqb x) set) eqn:E; [exact Hnd |].
  apply NoDup_app. split; [exact Hnd | split].
  - intros y Hy Hx. apply list_elem_of_singleton in Hx. subst y.
    apply existsb_eqb_elem_of in Hy. congruence.
  - apply NoDup_singleton.
Qed.

Lemma trim_nonempty (s : string) : JS.trim s <> "" -> s <> "".
Proof. intros H ->. now apply H. Qed.

Lemma availableStep_elem_of set t (x : string) :
  x ∈ availableStep props set t <-> x ∈ set \/ contributes props t x.
Proof.
  unfold availableStep, contributes.
  destruct (effectiveDepartment props t) as [s|].
  - destruct (JS.truthy s && JS.truthy (JS.trim s)) eqn:E.
    + apply andb_true_iff in E. destruct E as [_ E]. apply truthy_true in E.
      rewrite Set_add_elem_of. split.
      * intros [-> | H]; [right; eauto | left; exact H].
      * intros [H | (s' & [= <-] & <- & _)]; auto.
    + split; [auto |]. intros [H | (s' & [= <-] & <- & Hne)]; [exact H |].
      pose proof (trim_nonempty s Hne) as Hs.
      apply truthy_true in Hne, Hs. rewrite Hne, Hs in E. discriminate.
  - split; [auto |]. intros [H | (s' & Hs & _)]; [exact H | discriminate].
Qed.

Lemma availableStep_NoDup set t : NoDup set -> NoDup (availableStep props set t).
Proof.
  intros Hnd. unfold availableStep.
  destruct (effectiveDepartment props t) as [s|]; [| exact Hnd].
  destruct (JS.truthy s && JS.truthy (JS.trim s)); [| exact Hnd].
  now apply Set_add_NoDup.
Qed.

Lemma available_fold_elem_of l : forall set (x : string),
  x ∈ fold_left (availableStep props) l set
  <-> x ∈ set \/ exists t, t ∈ l /\ contributes props t x.
Proof.
  induction l as [|t l IH]; intros set x; simpl.
  - split; [auto |]. intros [H | (t & Ht & _)]; [exact H | inversion Ht].
  - rewrite IH, availableStep_elem_of. split.
    + intros [[H | H] | (t' & Ht' & H)]; [auto | |].
      * right. exists t. split; [left | exact H].
      * right. exists t'. split; [now right | exact H].
    + intros [H | (t' & Ht' & H)]; [auto |].
      apply elem_of_cons in Ht'. destruct Ht' as [-> | Ht']; [auto |].
      right. eauto.
Qed.

Lemma available_fold_NoDup l : forall set,
  NoDup set -> NoDup (fold_left (availableStep props) l set).
Proof.
  induction l as [|t l IH]; intros set Hnd; simpl; [exact Hnd |].
  apply IH. now apply availableStep_NoDup.
Qed.

Lemma defaultCompare_total (a b : string) :
  defaultCompare a b <= 0 \/ defaultCompare b a <= 0.
Proof.
  unfold defaultCompare. rewrite (String.compare_antisym a b).
  destruct (String.compare b a); simpl; lia.
Qed.

Lemma codeUnitLe_trans (a b c : string) :
  codeUnitLe a b -> codeUnitLe b c -> codeUnitLe a c.
Proof.
  unfold codeUnitLe. revert b c.
  induction a as [|x a IH]; intros [|y b] [|z c]; simpl; try congruence.
  destruct (Ascii.compare x y) eqn:Exy; [| | congruence];
    destruct (Ascii.compare y z) eqn:Eyz; try congruence.
  - apply Ascii.compare_eq_iff in Exy, Eyz. subst y z.
    replace (Ascii.compare x x) with Eq
      by (unfold Ascii.compare; symmetry; apply N.compare_refl).
    apply IH.
  - apply Ascii.compare_eq_iff in Exy. subst y. now rewrite Eyz.
  - apply Ascii.compare_eq_iff in Eyz. subst z. now rewrite Exy.
  - unfold Ascii.compare in *. rewrite N.compare_lt_iff in Exy, Eyz.
    assert (H : (N_of_ascii x < N_of_ascii z)%N) by lia.
    apply N.compare_lt_iff in H. rewrite H. congruence.
Qed.

Lemma inOrder_defaultCompare (a b : string) :
  inOrder defaultCompare a b <-> codeUnitLe a b.
Proof.
  unfold inOrder, defaultCompare, codeUnitLe.
  destruct (String.compare a b); split; intros H; try lia; congruence.
Qed.

(** The list offered by the department selector: the trimmed non-empty
    effective departments of the transactions, each once, in code-unit
    order. *)
Lemma availableDepartments_spec h :
  (forall x : string,
      x ∈ availableDepartments props h
      <-> exists t, t ∈ elementsOf h (transactions props) /\ contributes props t x)
  /\ NoDup (availableDepartments props h)
  /\ StronglySorted codeUnitLe (availableDepartments props h).
Proof.
  unfold availableDepartments. split; [| split].
  - intros x. rewrite sortWith_Permutation, available_fold_elem_of.
    split; [intros [H | H]; [inversion H | exact H] | auto].
  - rewrite sortWith_Permutation. apply available_fold_NoDup. constructor.
  - apply (Sorted_StronglySorted codeUnitLe_trans).
    pose proof (sortWith_Sorted defaultCompare defaultCompare_total
                  (fold_left (availableStep props)
                     (elementsOf h (transactions props)) [])) as Hs.
    induction Hs as [|x l Hs IH Hd]; constructor; [exact IH |].
    destruct Hd as [|y l' Hxy]; constructor. now apply inOrder_defaultCompare.
Qed.

(** C10, as amended: the selector lists the trimmed non-empty effective
    departments, each once, in code-unit order, while the department
    filter compares the effective department as it is stored.  Hence, for
    a transaction whose effective department differs from its trimmed
    form, that form being neither empty nor ["all"], the trimmed label is
    offered by the selector, and selecting it leaves the transaction out
    of the filtered result. *)
Theorem padded_department_excluded (timeRange : string) (now : Date) h t
  (s : string) :
  t ∈ elementsOf h (transactions props) ->
  effectiveDepartment props t = Some s ->
  JS.trim s <> s ->
  JS.trim s <> "" ->
  JS.trim s <> "all" ->
  JS.trim s ∈ availableDepartments props h
  /\ (t ∉ filteredElements props timeRange (JS.trim s) now h)
  /\ NoDup (availableDepartments props h)
  /\ StronglySorted codeUnitLe (availableDepartments props h)
  /\ (forall x : string,
        x ∈ availableDepartments props h
        <-> exists t', t' ∈ elementsOf h (transactions props)
                       /\ exists s', effectiveDepartment props t' = Some s'
                                     /\ JS.trim s' = x /\ x <> "").
Proof.
  intros Hin Hdept Hpad Hne Hall.
  destruct (availableDepartments_spec h) as (Hmem & Hnd & Hsorted).
  split; [| split; [| split; [exact Hnd | split; [exact Hsorted | exact Hmem]]]].
  - apply Hmem. exists t. split; [exact Hin |]. exists s. auto.
  - intros Hres.
    apply filteredElements_department_elem_of in Hres; [| assumption ..].
    destruct Hres as [_ Hres]. congruence.
Qed.

End Departments.

Lemma padded_department_excluded_witness :
  let h := Examples.storeOf [Examples.older; Examples.paddedOverride] in
  JS.trim " Sales" = "Sales"
  /\ "Sales" ∈ availableDepartments Examples.propsDangling h
  /\ Examples.paddedOverride
     ∉ filteredElements Examples.propsDangling "all" "Sales" Examples.midMarch2024 h.
Proof.
  cbv zeta. split; [reflexivity |].
  assert (Hin : Examples.paddedOverride
                ∈ elementsOf (Examples.storeOf [Examples.older; Examples.paddedOverride])
                    (transactions Examples.propsDangling))
    by (rewrite elementsOf_storeOf; right; left).
  pose proof (padded_department_excluded Examples.propsDangling "all"
                Examples.midMarch2024
                (Examples.storeOf [Examples.older; Examples.paddedOverride])
                Examples.paddedOverride " Sales" Hin eq_refl
                ltac:(discriminate) ltac:(discriminate) ltac:(discriminate)) as H.
  exact (conj (proj1 H) (proj1 (proj2 H))).
Defined.

(** C10, as stated, fails twice.  An effective department of one space is
    not empty and carries white space, yet its trimmed label, the empty
    string, is not offered; and an effective department [" all"] has its
    trimmed label ["all"] offered, yet selecting ["all"] keeps the
    transaction in the result. *)
Lemma padded_department_counterexample :
  ~ (forall (props : StatisticsTableProps) (h : Store Z) (t : Transaction Z)
            (s : string),
        t ∈ elementsOf h (transactions props) ->
        effectiveDepartment props t = Some s ->
        s <> "" -> JS.trim s <> s ->
        JS.trim s ∈ availableDepartments props h)
  /\ ~ (forall (props : StatisticsTableProps) (timeRange : string) (now : Date)
               (h : Store Z) (t : Transaction Z) (s : string),
          t ∈ elementsOf h (transactions props) ->
          effectiveDepartment props t = Some s ->
          s <> "" -> JS.trim s <> s ->
          JS.trim s ∈ availableDepartments props h ->
          t ∉ filteredElements props timeRange (JS.trim s) now h).
Proof.
  split; intros H.
  - specialize (H Examples.propsDangling (Examples.storeOf [Examples.blankOverride])
                  Examples.blankOverride " ").
    rewrite elementsOf_storeOf in H.
    specialize (H ltac:(left) eq_refl ltac:(discriminate) ltac:(discriminate)).
    replace (availableDepartments Examples.propsDangling
               (Examples.storeOf [Examples.blankOverride]))
      with (@nil string) in H by (vm_compute; reflexivity).
    inversion H.
  - specialize (H Examples.propsDangling "all" Examples.midMarch2024
                  (Examples.storeOf [Examples.paddedAll]) Examples.paddedAll " all").
    rewrite elementsOf_storeOf in H.
    specialize (H ltac:(left) eq_refl ltac:(discriminate) ltac:(discriminate)).
    replace (availableDepartments Examples.propsDangling
               (Examples.storeOf [Examples.paddedAll]))
      with ["all"] in H by (vm_compute; reflexivity).
    replace (filteredElements Examples.propsDangling "all" (JS.trim " all")
               Examples.midMarch2024 (Examples.storeOf [Examples.paddedAll]))
      with [Examples.paddedAll] in H by (vm_compute; reflexivity).
    apply H; left.
Qed.

(** * Further properties *)

(** ** The stages of the pipeline *)

Section Stages.

Context {num : Type} {numOps : Number num}.

Implicit Types (h : Store num) (t : Transaction num) (l : list (Transaction num)).

Variable props : StatisticsTableProps.

Lemma insertSorted_all_after (p : Transaction num -> bool) (x : Transaction num) l :
  (forall z, z ∈ l -> notOlder x z) ->
  insertSorted byDateDescending x (List.filter p l) = x :: List.filter p l.
Proof.
  intros H. apply insertSorted_head.
  destruct (List.filter p l) as [|z l'] eqn:E; constructor.
  assert (Hz : z ∈ List.filter p l) by (rewrite E; left).
  apply filter_elem_of in Hz. destruct Hz as [Hz _]. apply H in Hz.
  unfold inOrder, byDateDescending. unfold notOlder in Hz. lia.
Qed.

(** Filtering a sorted sequence into which [x] was inserted. *)
Lemma filter_insertSorted (p : Transaction num -> bool) (x : Transaction num) l :
  StronglySorted notOlder l ->
  List.filter p (insertSorted byDateDescending x l)
  = if p x then insertSorted byDateDescending x (List.filter p l)
    else List.filter p l.
Proof.
  induction 1 as [|y l Hs IH Hall]; simpl.
  - destruct (p x); reflexivity.
  - destruct (byDateDescending x y <=? 0) eqn:E.
    + apply Z.leb_le in E. simpl. destruct (p x) eqn:Ex; [| reflexivity].
      symmetry. apply (insertSorted_all_after p x (y :: l)).
      intros z Hz. unfold byDateDescending in E. unfold notOlder.
      apply elem_of_cons in Hz. destruct Hz as [-> | Hz]; [lia |].
      rewrite Forall_forall in Hall. specialize (Hall z Hz).
      unfold notOlder in Hall. lia.
    + simpl. rewrite IH. destruct (p y) eqn:Ey; destruct (p x) eqn:Ex;
        simpl; rewrite ?E; reflexivity.
Qed.

(** Filtering after the sort is sorting after the filter. *)
Lemma filter_sortWith (p : Transaction num -> bool) l :
  List.filter p (sortWith byDateDescending l)
  = sortWith byDateDescending (List.filter p l).
Proof.
  induction l as [|x l IH]; simpl; [reflexivity |].
  rewrite filter_insertSorted by apply sortWith_byDate_StronglySorted.
  rewrite IH. destruct (p x); reflexivity.
Qed.

Lemma timeStage_filter timeRange now l :
  timeStage timeRange now l = List.filter (withinRange timeRange now) l.
Proof.
  unfold timeStage, withinRange.
  destruct (timeRangeBounds timeRange now) as [[s|] [e|]];
    try reflexivity; symmetry; apply filter_true.
Qed.

(** X1: the order of the stages does not matter.  The array returned
    holds the input transactions that pass the time test and the
    department test, sorted by date descending: filtering by department
    before the sort, or both filters at once, gives the same sequence. *)
Theorem filteredTransactions_stage_order (timeRange departmentFilter : string)
  (now : Date) h :
  filteredElements props timeRange departmentFilter now h
  = sortWith byDateDescending
      (List.filter
         (fun t => withinRange timeRange now t
                   && departmentAccepts props departmentFilter t)
         (elementsOf h (transactions props))).
Proof.
  rewrite filteredTransactions_elements. unfold filteredSequence. cbv zeta.
  rewrite timeStage_filter. unfold departmentAccepts.
  destruct (departmentFilterActive departmentFilter).
  - rewrite filter_sortWith, filter_filter_and. reflexivity.
  - f_equal. apply List.filter_ext. intros t. now rewrite andb_true_r.
Qed.

(** Membership in the result, for every range and department filter. *)
Lemma filteredElements_elem_of (timeRange departmentFilter : string) (now : Date) h t :
  t ∈ filteredElements props timeRange departmentFilter now h
  <-> t ∈ elementsOf h (transactions props)
      /\ withinRange timeRange now t = true
      /\ departmentAccepts props departmentFilter t = true.
Proof.
  rewrite filteredTransactions_elements. unfold filteredSequence. cbv zeta.
  rewrite timeStage_filter. unfold departmentAccepts.
  destruct (departmentFilterActive departmentFilter).
  - rewrite filter_elem_of, sortWith_Permutation, filter_elem_of. tauto.
  - rewrite sortWith_Permutation, filter_elem_of. tauto.
Qed.

End Stages.

(** ** How the time ranges lie in one another *)

Section Ranges.

Lemma MakeDay_next_month (y m : Z) :
  0 <= m < 12 ->
  MakeDay y m (getDaysInMonth y m) + 1
  = if m =? 11 then MakeDay (y + 1) 0 1 else MakeDay y (m + 1) 1.
Proof.
  intros H. apply month_cases in H. unfold MakeDay.
  repeat (destruct H as [H | H]); subst; simpl Z.eqb; cbv iota;
    rewrite ?DayFromYear_next;
    unfold daysBeforeMonth, getDaysInMonth; simpl Z.add;
    destruct (isLeapYear y); try lia;
    destruct (isLeapYear (y + 1)); lia.
Qed.

(** The start of the month [k] months back, [k] from 0 to 11. *)
Lemma startOfMonth_back (now : Date) (k : Z) :
  validDate now -> 0 <= k < 12 ->
  startOfMonth (subMonths now k)
  = mkDate (getFullYear now + (getMonth now - k) / 12)
           ((getMonth now - k) mod 12) 1 0.
Proof.
  intros (Hm & _) Hk. destruct (Z.eq_dec k 0) as [-> | Hne].
  - unfold subMonths, addMonths, startOfMonth. simpl.
    rewrite Z.sub_0_r, Z.div_small, Z.mod_small, Z.add_0_r by lia. reflexivity.
  - now apply startOfMonth_subMonths.
Qed.

(** The further back, the earlier the start. *)
Lemma startOfMonth_back_le (now : Date) (k1 k2 : Z) :
  validDate now -> 0 <= k1 -> k1 <= k2 -> k2 < 12 ->
  getTime (startOfMonth (subMonths now k2)) <= getTime (startOfMonth (subMonths now k1)).
Proof.
  intros Hnow H0 H12 Hk. pose proof Hnow as (Hm & _).
  rewrite !startOfMonth_back by (assumption || lia).
  assert (Hd : MakeDay (getFullYear now + (getMonth now - k2) / 12)
                       ((getMonth now - k2) mod 12) 1
               <= MakeDay (getFullYear now + (getMonth now - k1) / 12)
                          ((getMonth now - k1) mod 12) 1).
  { destruct (months_back (getMonth now) k1 Hm ltac:(lia)) as [(Hq1 & Hr1 & ?) | (Hq1 & Hr1 & ?)];
      destruct (months_back (getMonth now) k2 Hm ltac:(lia)) as [(Hq2 & Hr2 & ?) | (Hq2 & Hr2 & ?)];
      rewrite Hq1, Hr1, Hq2, Hr2; try lia; apply MakeDay_month_le; lia. }
  unfold getTime, msPerDay. cbn [getFullYear getMonth getDate msWithinDay]. lia.
Qed.

(** The last instant of last month is the instant before this month. *)
Lemma lastMonth_end_next (now : Date) :
  validDate now ->
  getTime (endOfMonth (subMonths now 1)) + 1 = getTime (startOfMonth now).
Proof.
  intros (Hm & _). rewrite endOfMonth_subMonths by lia. cbv zeta.
  unfold startOfMonth, getTime, msPerDay.
  cbn [getFullYear getMonth getDate msWithinDay].
  destruct (months_back (getMonth now) 1 Hm ltac:(lia)) as [(Hq & Hr & ?) | (Hq & Hr & ?)];
    rewrite Hq, Hr.
  - pose proof (MakeDay_next_month (getFullYear now + 0) (getMonth now - 1)
                  ltac:(lia)) as Hn.
    destruct (getMonth now - 1 =? 11) eqn:E; [apply Z.eqb_eq in E; lia |].
    replace (getMonth now - 1 + 1) with (getMonth now) in Hn by lia.
    rewrite Z.add_0_r in *. lia.
  - assert (Hz : getMonth now = 0) by lia. rewrite Hz.
    change (0 - 1 + 12) with 11.
    pose proof (MakeDay_next_month (getFullYear now + -1) 11 ltac:(lia)) as Hn.
    simpl Z.eqb in Hn. cbv iota in Hn.
    replace (getFullYear now + -1 + 1) with (getFullYear now) in Hn by lia.
    lia.
Qed.

(** The month of [now] lies within its year. *)
Lemma month_within_year (now : Date) :
  validDate now ->
  getTime (startOfYear now) <= getTime (startOfMonth now)
  /\ getTime (endOfMonth now) <= getTime (endOfYear now).
Proof.
  intros (Hm & _). unfold startOfYear, startOfMonth, endOfMonth, endOfYear.
  unfold getTime, msPerDay. cbn [getFullYear getMonth getDate msWithinDay].
  split.
  - pose proof (MakeDay_month_le (getFullYear now) 0 (getFullYear now) (getMonth now)
                  ltac:(lia) Hm ltac:(lia)). lia.
  - assert (H : MakeDay (getFullYear now) (getMonth now)
                  (getDaysInMonth (getFullYear now) (getMonth now))
                <= MakeDay (getFullYear now) 11 31).
    { apply month_cases in Hm. unfold MakeDay, daysBeforeMonth, getDaysInMonth.
      repeat (destruct Hm as [Hm | Hm]); rewrite Hm;
        destruct (isLeapYear (getFullYear now)); lia. }
    lia.
Qed.

End Ranges.

Section RangeInclusion.

Context {num : Type} {numOps : Number num}.

Implicit Types (h : Store num) (t : Transaction num).

Variable props : StatisticsTableProps.

Lemma withinRange_spec (timeRange : string) (now s e : Date) t :
  validDate now ->
  timeRangeBounds timeRange now = (Some s, Some e) ->
  withinRange timeRange now t = true <-> getTime s <= date t <= getTime e.
Proof.
  intros Hnow Hb. unfold withinRange. rewrite Hb.
  apply isWithinInterval_ordered. exact (timeRangeBounds_ordered _ _ _ _ Hnow Hb).
Qed.

Lemma withinRange_thisMonth now t :
  validDate now ->
  withinRange "thisMonth" now t = true
  <-> getTime (startOfMonth now) <= date t <= getTime (endOfMonth now).
Proof. intros H. now apply withinRange_spec. Qed.

Lemma withinRange_lastMonth now t :
  validDate now ->
  withinRange "lastMonth" now t = true
  <-> getTime (startOfMonth (subMonths now 1)) <= date t
      <= getTime (endOfMonth (subMonths now 1)).
Proof. intros H. now apply withinRange_spec. Qed.

Lemma withinRange_last3Months now t :
  validDate now ->
  withinRange "last3Months" now t = true
  <-> getTime (startOfMonth (subMonths now 2)) <= date t <= getTime (endOfMonth now).
Proof. intros H. now apply withinRange_spec. Qed.

Lemma withinRange_last6Months now t :
  validDate now ->
  withinRange "last6Months" now t = true
  <-> getTime (startOfMonth (subMonths now 5)) <= date t <= getTime (endOfMonth now).
Proof. intros H. now apply withinRange_spec. Qed.

Lemma withinRange_thisYear now t :
  validDate now ->
  withinRange "thisYear" now t = true
  <-> getTime (startOfYear now) <= date t <= getTime (endOfYear now).
Proof. intros H. now apply withinRange_spec. Qed.

Lemma startOfMonth_now_back (now : Date) :
  startOfMonth (subMonths now 0) = startOfMonth now.
Proof. reflexivity. Qed.

(** Inclusion of the time tests carries over to the results. *)
Lemma filteredElements_range_incl (r1 r2 departmentFilter : string) (now : Date) h t :
  (withinRange r1 now t = true -> withinRange r2 now t = true) ->
  t ∈ filteredElements props r1 departmentFilter now h ->
  t ∈ filteredElements props r2 departmentFilter now h.
Proof. rewrite !filteredElements_elem_of. tauto. Qed.

(** X2: the ranges are nested.  For a valid [now] and any department
    filter, a transaction shown under [thisMonth] or under [lastMonth] is
    shown under [last3Months]; one shown under [last3Months] is shown under
    [last6Months]; one shown under [thisMonth] is shown under [thisYear];
    and one shown under any range is shown under ["all"]. *)
Theorem time_ranges_nested (departmentFilter : string) (now : Date) h t :
  validDate now ->
  (t ∈ filteredElements props "thisMonth" departmentFilter now h ->
   t ∈ filteredElements props "last3Months" departmentFilter now h)
  /\ (t ∈ filteredElements props "lastMonth" departmentFilter now h ->
      t ∈ filteredElements props "last3Months" departmentFilter now h)
  /\ (t ∈ filteredElements props "last3Months" departmentFilter now h ->
      t ∈ filteredElements props "last6Months" departmentFilter now h)
  /\ (t ∈ filteredElements props "thisMonth" departmentFilter now h ->
      t ∈ filteredElements props "thisYear" departmentFilter now h)
  /\ (forall timeRange,
        t ∈ filteredElements props timeRange departmentFilter now h ->
        t ∈ filteredElements props "all" departmentFilter now h).
Proof.
  intros Hnow.
  pose proof (startOfMonth_back_le now 0 2 Hnow ltac:(lia) ltac:(lia) ltac:(lia)) as H02.
  pose proof (startOfMonth_back_le now 1 2 Hnow ltac:(lia) ltac:(lia) ltac:(lia)) as H12.
  pose proof (startOfMonth_back_le now 2 5 Hnow ltac:(lia) ltac:(lia) ltac:(lia)) as H25.
  pose proof (lastMonth_end_next now Hnow) as Hnext.
  pose proof (month_within_year now Hnow) as [Hys Hye].
  rewrite startOfMonth_now_back in H02.
  assert (Hthis : getTime (startOfMonth now) <= getTime (endOfMonth now))
    by (apply (timeRangeBounds_ordered "thisMonth" now); [exact Hnow | reflexivity]).
  split; [| split; [| split; [| split]]].
  - apply filteredElements_range_incl.
    rewrite withinRange_thisMonth, withinRange_last3Months by exact Hnow. lia.
  - apply filteredElements_range_incl.
    rewrite withinRange_lastMonth, withinRange_last3Months by exact Hnow. lia.
  - apply filteredElements_range_incl.
    rewrite withinRange_last3Months, withinRange_last6Months by exact Hnow. lia.
  - apply filteredElements_range_incl.
    rewrite withinRange_thisMonth, withinRange_thisYear by exact Hnow. lia.
  - intros timeRange. apply filteredElements_range_incl. reflexivity.
Qed.

(** X3: last month and this month share no transaction and leave no gap.
    For a valid [now], the last instant of [lastMonth] is the millisecond
    before the first instant of [thisMonth]; no transaction is shown under
    both; and a transaction shown under [last3Months] that is not dated
    before the start of [lastMonth] is shown under [lastMonth] or under
    [thisMonth]. *)
Theorem lastMonth_thisMonth_adjacent (departmentFilter : string) (now : Date) h t :
  validDate now ->
  getTime (endOfMonth (subMonths now 1)) + 1 = getTime (startOfMonth now)
  /\ ~ (t ∈ filteredElements props "lastMonth" departmentFilter now h
        /\ t ∈ filteredElements props "thisMonth" departmentFilter now h)
  /\ (t ∈ filteredElements props "last3Months" departmentFilter now h ->
      getTime (startOfMonth (subMonths now 1)) <= date t ->
      t ∈ filteredElements props "lastMonth" departmentFilter now h
      \/ t ∈ filteredElements props "thisMonth" departmentFilter now h).
Proof.
  intros Hnow. pose proof (lastMonth_end_next now Hnow) as Hnext.
  split; [exact Hnext | split].
  - rewrite !filteredElements_elem_of.
    rewrite withinRange_lastMonth, withinRange_thisMonth by exact Hnow.
    intros [(_ & H1 & _) (_ & H2 & _)]. lia.
  - rewrite !filteredElements_elem_of.
    rewrite withinRange_lastMonth, withinRange_thisMonth, withinRange_last3Months
      by exact Hnow.
    intros (Hin & Hr & Hd) Hstart.
    destruct (Z_le_gt_dec (date t) (getTime (endOfMonth (subMonths now 1))));
      [left | right]; repeat split; try assumption; lia.
Qed.

End RangeInclusion.

(** ** Trimming *)

Section Trimming.

Lemma trimStart_starts (s : string) : startsWithWhiteSpace (JS.trimStart s) = false.
Proof.
  induction s as [|a s IH]; simpl; [reflexivity |].
  destruct (JS.isWhiteSpace a) eqn:E; [exact IH |]. simpl. exact E.
Qed.

Lemma trimEnd_starts (s : string) :
  startsWithWhiteSpace s = false -> startsWithWhiteSpace (JS.trimEnd s) = false.
Proof.
  destruct s as [|a s]; simpl; [reflexivity |].
  intros E. destruct (JS.trimEnd s); [rewrite E |]; simpl; [exact E | exact E].
Qed.

Lemma trimEnd_ends (s : string) : endsWithWhiteSpace (JS.trimEnd s) = false.
Proof.
  induction s as [|a s IH]; simpl; [reflexivity |].
  destruct (JS.trimEnd s) as [|b r] eqn:E.
  - destruct (JS.isWhiteSpace a) eqn:Ea; simpl; [reflexivity | exact Ea].
  - exact IH.
Qed.

Lemma trimStart_fix (s : string) :
  startsWithWhiteSpace s = false -> JS.trimStart s = s.
Proof. destruct s as [|a s]; simpl; [reflexivity |]. now intros ->. Qed.

Lemma trimEnd_fix (s : string) :
  endsWithWhiteSpace s = false -> JS.trimEnd s = s.
Proof.
  induction s as [|a s IH]; [reflexivity |].
  destruct s as [|b s'].
  - simpl. now intros ->.
  - intros E. change (endsWithWhiteSpace (String b s') = false) in E.
    specialize (IH E). simpl in *. now rewrite IH.
Qed.

Lemma trim_clean (s : string) :
  startsWithWhiteSpace (JS.trim s) = false /\ endsWithWhiteSpace (JS.trim s) = false.
Proof.
  unfold JS.trim. split; [apply trimEnd_starts, trimStart_starts | apply trimEnd_ends].
Qed.

(** Trimming a trimmed string changes nothing. *)
Lemma trim_idempotent (s : string) : JS.trim (JS.trim s) = JS.trim s.
Proof.
  destruct (trim_clean s) as [Hs He].
  unfold JS.trim at 1. now rewrite trimStart_fix, trimEnd_fix.
Qed.

Lemma allWhiteSpace_trimStart (s : string) :
  allWhiteSpace (JS.trimStart s) = allWhiteSpace s.
Proof.
  induction s as [|a s IH]; simpl; [reflexivity |].
  destruct (JS.isWhiteSpace a) eqn:E; simpl; [exact IH | now rewrite E].
Qed.

Lemma trimEnd_empty (s : string) : JS.trimEnd s = "" <-> allWhiteSpace s = true.
Proof.
  induction s as [|a s IH]; simpl; [tauto |].
  destruct (JS.trimEnd s) as [|b r].
  - destruct (JS.isWhiteSpace a); simpl.
    + split; [intros _; now apply IH | reflexivity].
    + split; discriminate.
  - rewrite andb_true_iff. split; [discriminate |].
    intros [_ H]. apply IH in H. discriminate.
Qed.

(** The trimmed string is empty exactly when all is white space. *)
Lemma trim_empty (s : string) : JS.trim s = "" <-> allWhiteSpace s = true.
Proof. unfold JS.trim. now rewrite trimEnd_empty, allWhiteSpace_trimStart. Qed.

Lemma trimmedOrUndefined_Some (draft v : string) :
  trimmedOrUndefined draft = Some v <-> v = JS.trim draft /\ v <> "".
Proof.
  rewrite trimmedOrUndefined_spec.
  destruct (String.eqb_spec (JS.trim draft) "") as [E | E].
  - split; [discriminate | intros [-> H]; contradiction].
  - split; [intros [= <-]; auto | intros [-> _]; reflexivity].
Qed.

Lemma trimmedOrUndefined_None (draft : string) :
  trimmedOrUndefined draft = None <-> allWhiteSpace draft = true.
Proof.
  rewrite trimmedOrUndefined_spec, <- trim_empty.
  destruct (String.eqb_spec (JS.trim draft) ""); split; congruence.
Qed.

End Trimming.

Section CommitValue.

Context {num : Type}.

Variable props : StatisticsTableProps.

(** X4: what [commit] sends is trimmed or absent.  Every call [commit]
    makes carries as [departmentName] either a non-empty string, equal to
    the trimmed draft, that neither starts nor ends with white space and
    that trimming leaves as it is, or [undefined], and the latter exactly
    when the draft is made of white space only (the empty draft
    included). *)
Theorem commit_sends_trimmed_label (x : Transaction num) (st : EditorState) (c : Call) :
  c ∈ fst (commit props x st) ->
  match callDepartmentName c with
  | Some v =>
      v = JS.trim (editingDept st) /\ v <> "" /\ JS.trim v = v
      /\ startsWithWhiteSpace v = false /\ endsWithWhiteSpace v = false
      /\ allWhiteSpace (editingDept st) = false
  | None => allWhiteSpace (editingDept st) = true
  end.
Proof.
  intros Hc.
  assert (Hd : callDepartmentName c = trimmedOrUndefined (editingDept st)).
  { rewrite commit_calls in Hc. apply elem_of_app in Hc.
    destruct Hc as [Hc | Hc];
      [destruct (updateTransaction props)
      | destruct (applyToCategory st && updateCategory props)];
      try (inversion Hc; fail);
      apply list_elem_of_singleton in Hc; subst c; reflexivity. }
  rewrite Hd. destruct (trimmedOrUndefined (editingDept st)) as [v|] eqn:E.
  - apply trimmedOrUndefined_Some in E. destruct E as [-> Hne].
    destruct (trim_clean (editingDept st)) as [Hs He].
    repeat split; try assumption; [apply trim_idempotent |].
    destruct (allWhiteSpace (editingDept st)) eqn:Ea; [| reflexivity].
    apply trim_empty in Ea. contradiction.
  - now apply trimmedOrUndefined_None.
Qed.

End CommitValue.

(** ** The selector and the editor *)

Section Selector.

Context {num : Type} {numOps : Number num}.

Implicit Types (h : Store num) (t : Transaction num) (l : list (Transaction num)).

Variable props : StatisticsTableProps.

(** X5: a label stored through the editor can be selected.  For a
    transaction of the input whose [departmentName] is the value a [commit]
    sent, that label is offered by the department selector, and, unless it
    is ["all"], selecting it keeps the transaction: the transaction is in
    the result for that label exactly when it is in the result for
    ["all"], whatever the time range. *)
Theorem committed_label_selectable (draft d : string) h t :
  t ∈ elementsOf h (transactions props) ->
  trimmedOrUndefined draft = Some d ->
  departmentName t = Some d ->
  d ∈ availableDepartments props h
  /\ (d <> "all" ->
      forall timeRange now,
        t ∈ filteredElements props timeRange d now h
        <-> t ∈ filteredElements props timeRange "all" now h).
Proof.
  intros Hin Hd Hname. apply trimmedOrUndefined_Some in Hd. destruct Hd as [Hd Hne].
  assert (Heff : effectiveDepartment props t = Some d).
  { unfold effectiveDepartment, JS.or. rewrite Hname.
    apply truthy_true in Hne. now rewrite Hne. }
  split.
  - apply (availableDepartments_spec props h). exists t. split; [exact Hin |].
    exists d. split; [exact Heff | split; [| exact Hne]].
    rewrite Hd. apply trim_idempotent.
  - intros Hall timeRange now.
    rewrite filteredElements_department_elem_of by assumption. tauto.
Qed.

Lemma codeUnitLe_antisym (a b : string) : codeUnitLe a b -> codeUnitLe b a -> a = b.
Proof.
  unfold codeUnitLe. rewrite (String.compare_antisym a b).
  destruct (String.compare b a) eqn:E; simpl; intros H1 H2; try congruence.
  symmetry. now apply String.compare_eq_iff.
Qed.

(** Two duplicate-free sorted lists with the same entries are equal. *)
Lemma sorted_NoDup_unique (l1 : list string) : forall l2 : list string,
  StronglySorted codeUnitLe l1 -> StronglySorted codeUnitLe l2 ->
  NoDup l1 -> NoDup l2 ->
  (forall x, x ∈ l1 <-> x ∈ l2) -> l1 = l2.
Proof.
  induction l1 as [|x l1 IH]; intros [|y l2] Hs1 Hs2 Hn1 Hn2 Heq.
  - reflexivity.
  - assert (H : y ∈ @nil string) by (apply Heq; left). inversion H.
  - assert (H : x ∈ @nil string) by (apply Heq; left). inversion H.
  - apply StronglySorted_inv in Hs1, Hs2.
    destruct Hs1 as [Hs1 Hall1]. destruct Hs2 as [Hs2 Hall2].
    rewrite Forall_forall in Hall1, Hall2.
    apply NoDup_cons in Hn1, Hn2.
    destruct Hn1 as [Hx Hn1]. destruct Hn2 as [Hy Hn2].
    assert (Hxy : x = y).
    { assert (Hx2 : x ∈ y :: l2) by (apply Heq; left).
      assert (Hy1 : y ∈ x :: l1) by (apply Heq; left).
      apply elem_of_cons in Hx2, Hy1.
      destruct Hx2 as [-> | Hx2]; [reflexivity |].
      destruct Hy1 as [-> | Hy1]; [reflexivity |].
      apply codeUnitLe_antisym; [apply Hall1, Hy1 | apply Hall2, Hx2]. }
    subst y. f_equal. apply IH; try assumption.
    intros z. specialize (Heq z). rewrite !elem_of_cons in Heq.
    split; intros Hz.
    + destruct (proj1 Heq (or_intror Hz)) as [-> | H]; [contradiction | exact H].
    + destruct (proj2 Heq (or_intror Hz)) as [-> | H]; [contradiction | exact H].
Qed.

(** The selector depends on the transactions only, not on their order. *)
Lemma availableDepartments_Permutation h h' :
  Permutation (elementsOf h (transactions props)) (elementsOf h' (transactions props)) ->
  availableDepartments props h = availableDepartments props h'.
Proof.
  intros Hp.
  destruct (availableDepartments_spec props h) as (Hm & Hn & Hs).
  destruct (availableDepartments_spec props h') as (Hm' & Hn' & Hs').
  apply sorted_NoDup_unique; try assumption.
  intros x. rewrite Hm, Hm'. split; intros (t & Ht & Hc); exists t; split; try exact Hc.
  - now rewrite <- Hp.
  - now rewrite Hp.
Qed.

Lemma timeRangeBounds_shape (timeRange : string) (now : Date) :
  (exists s e, timeRangeBounds timeRange now = (Some s, Some e))
  \/ timeRangeBounds timeRange now = (None, None).
Proof.
  unfold timeRangeBounds.
  repeat match goal with
         | |- context [if ?c then _ else _] => destruct c; [left; eauto |]
         end.
  now right.
Qed.

(** X6: running the pipeline does not change the selector.  When the
    array of [transactions] is in the store, the list of selectable
    departments computed in the store [filteredTransactions] leaves is the
    list computed before the run, for every range and department filter,
    also when the run has sorted that array in place. *)
Theorem availableDepartments_after_filtering (timeRange departmentFilter : string)
  (now : Date) h :
  transactions props ∈ dom h ->
  availableDepartments props
    (storeAfter (filteredTransactions props timeRange departmentFilter now) h)
  = availableDepartments props h.
Proof.
  intros Hin. apply availableDepartments_Permutation.
  destruct (timeRangeBounds_shape timeRange now) as [(s & e & Hb) | Hb].
  - now rewrite (filteredTransactions_bounded_frame props _ _ _ _ s e Hb Hin).
  - rewrite (filteredTransactions_unbounded_in_place props _ _ _ _ Hb).
    apply sortWith_Permutation.
Qed.

Lemma filter_id_absent (i : string) l :
  i ∉ map id l -> List.filter (fun t => String.eqb i (id t)) l = [].
Proof.
  induction l as [|y l IH]; simpl; [reflexivity |].
  rewrite not_elem_of_cons. intros [Hne Hi].
  apply String.eqb_neq in Hne. rewrite Hne. now apply IH.
Qed.

Lemma filter_id_le (i : string) l :
  NoDup (map id l) ->
  (length (List.filter (fun t => String.eqb i (id t)) l) <= 1)%nat.
Proof.
  induction l as [|y l IH]; simpl; [lia |].
  rewrite NoDup_cons. intros [Hy Hnd].
  destruct (String.eqb_spec i (id y)) as [-> | Hne]; [| now apply IH].
  rewrite filter_id_absent by exact Hy. simpl. lia.
Qed.

Lemma filter_id_present (x : Transaction num) l :
  NoDup (map id l) -> x ∈ l ->
  List.filter (fun t => String.eqb (id x) (id t)) l = [x].
Proof.
  induction l as [|y l IH]; simpl; [intros _ H; inversion H |].
  rewrite NoDup_cons, elem_of_cons. intros [Hy Hnd] [-> | Hx].
  - rewrite String.eqb_refl, filter_id_absent by exact Hy. reflexivity.
  - destruct (String.eqb_spec (id x) (id y)) as [E | Hne]; [| now apply IH].
    exfalso. apply Hy. rewrite <- E. apply list_elem_of_fmap. eauto.
Qed.

Lemma filter_false {A : Type} (l : list A) : List.filter (fun _ => false) l = [].
Proof. induction l as [|y l IH]; simpl; [reflexivity | exact IH]. Qed.

(** X9: one row at most shows the editor.  When the transactions of a
    list have distinct ids, at most one of them is in edit mode in any
    editor state; after a click on the department cell of one of them it is
    that one and no other; after [commit] and after [cancel] none is. *)
Theorem single_editing_row (x : Transaction num) (st : EditorState) l :
  NoDup (map id l) ->
  (length (List.filter (isEditingRow st) l) <= 1)%nat
  /\ (x ∈ l -> List.filter (isEditingRow (startEdit props x st)) l = [x])
  /\ List.filter (isEditingRow (snd (commit props x st))) l = []
  /\ List.filter (isEditingRow (snd (cancel st))) l = [].
Proof.
  intros Hnd. split; [| split; [| split]].
  - unfold isEditingRow. destruct (editingId st) as [i|].
    + now apply filter_id_le.
    + rewrite filter_false. simpl. lia.
  - intros Hx. now apply filter_id_present.
  - apply filter_false.
  - apply filter_false.
Qed.

End Selector.

(** ** Totals and the order of the transactions *)

Section TotalsOrder.

Context {num : Type} {numOps : Number num}.

Implicit Types (t : Transaction num) (l : list (Transaction num)) (c : string).




Hypothesis add_comm : forall a b : num, add a b = add b a.
Hypothesis add_assoc : forall a b c : num, add (add a b) c = add a (add b c).



End TotalsOrder.

Section TotalsSigns.

Implicit Types (t : Transaction Z) (l : list (Transaction Z)) (c : string).

Lemma sumFrom_lower (amounts : list Z) : forall start,
  Forall (fun a => 0 <= a) amounts ->
  start <= sumFrom start amounts
  /\ forall a, a ∈ amounts -> start + a <= sumFrom start amounts.
Proof.
  unfold sumFrom. change (@add Z Z_Number) with Z.add.
  induction amounts as [|x amounts IH]; intros start Hall; simpl.
  - split; [lia | intros a Ha; inversion Ha].
  - apply Forall_cons in Hall. destruct Hall as [Hx Hall].
    destruct (IH (start + x) Hall) as [H1 H2].
    split; [lia |]. intros a Ha. apply elem_of_cons in Ha.
    destruct Ha as [-> | Ha]; [exact H1 |]. specialize (H2 a Ha). lia.
Qed.

Lemma amountsOf_nonneg ty c l :
  Forall (fun t => 0 <= amount t) l -> Forall (fun a => 0 <= a) (amountsOf ty c l).
Proof.
  intros Hall. unfold amountsOf. rewrite Forall_forall in Hall.
  apply Forall_forall. intros a Ha. apply list_elem_of_fmap in Ha. destruct Ha as (t & -> & Ht).
  apply filter_elem_of in Ht. apply Hall. tauto.
Qed.

Lemma amountsOf_elem_of ty c l t :
  t ∈ l -> type t = ty -> currency t = c -> amount t ∈ amountsOf ty c l.
Proof.
  intros Ht Hty Hc. unfold amountsOf. apply list_elem_of_fmap. exists t.
  split; [reflexivity |]. apply filter_elem_of. split; [exact Ht |].
  rewrite Hc, String.eqb_refl, Hty. destruct ty; reflexivity.
Qed.

(** X8: with integer amounts none of which is negative, the two
    accumulators of every bucket are not negative, and no transaction
    exceeds the accumulator it was added to: the [income] of a bucket is at
    least the amount of each income transaction in its currency, and its
    [expense] at least the amount of each of the others. *)
Theorem totals_nonnegative l c (b : Bucket (num := Z)) :
  Forall (fun t => 0 <= amount t) l ->
  getBucket (totals l) c = Some b ->
  0 <= income b /\ 0 <= expense b
  /\ forall t, t ∈ l -> currency t = c ->
       match type t with
       | Income => amount t <= income b
       | Expense => amount t <= expense b
       end.
Proof.
  intros Hall Hb. rewrite getBucket_totals in Hb.
  destruct (occurs c l); [| discriminate]. injection Hb as <-.
  cbn [income expense].
  destruct (sumFrom_lower (amountsOf Income c l) 0 (amountsOf_nonneg Income c l Hall))
    as [Hi1 Hi2].
  destruct (sumFrom_lower (amountsOf Expense c l) 0 (amountsOf_nonneg Expense c l Hall))
    as [He1 He2].
  split; [exact Hi1 | split; [exact He1 |]].
  intros t Ht Hc. destruct (type t) eqn:Ety.
  - specialize (Hi2 (amount t) (amountsOf_elem_of Income c l t Ht Ety Hc)). lia.
  - specialize (He2 (amount t) (amountsOf_elem_of Expense c l t Ht Ety Hc)). lia.
Qed.

End TotalsSigns.

(** ** Export to and import from the spreadsheet *)

Section Sheets.

Import GoogleSheetsSync.

Context {num : Type}.

Variable toLocaleDateString : Z -> string.
Variable numberToString : num -> string.
Variable getCategoryName : string -> string.

(** X10: the table written to the sheet.  It has one row more than there
    are transactions, the header row first; every row has seven cells, as
    the header has and as the range A to G holds; and the rows follow the
    transactions in their order: the last cell of each row is the id of
    its transaction, the fifth its currency, and the description cell is
    the description, empty when there is none. *)
Theorem exportValues_table (l : list (Transaction num)) :
  length (exportValues toLocaleDateString numberToString getCategoryName l) = S (length l)
  /\ head (exportValues toLocaleDateString numberToString getCategoryName l) = Some headers
  /\ Forall (fun row => length row = 7%nat) (exportValues toLocaleDateString numberToString getCategoryName l)
  /\ map (fun row => nth 6 row "") (tail (exportValues toLocaleDateString numberToString getCategoryName l)) = map id l
  /\ map (fun row => nth 4 row "") (tail (exportValues toLocaleDateString numberToString getCategoryName l)) = map currency l
  /\ map (fun row => nth 5 row "") (tail (exportValues toLocaleDateString numberToString getCategoryName l))
     = map (fun tx => default "" (description tx)) l.
Proof.
  unfold exportValues. cbn [tail head length].
  split; [now rewrite length_map |]. split; [reflexivity |].
  split; [| split; [| split]].
  - constructor; [reflexivity |]. apply Forall_forall. intros row Hrow.
    apply list_elem_of_fmap in Hrow. destruct Hrow as (tx & -> & _). reflexivity.
  - rewrite map_map. reflexivity.
  - rewrite map_map. reflexivity.
  - rewrite map_map. apply map_ext. intros tx. cbn [exportRow nth].
    unfold JS.or. destruct (description tx) as [d|]; [| reflexivity].
    destruct d; reflexivity.
Qed.

(** X11: the export always ends idle and always reports.  However the
    awaited call ends, [isExporting] is false after the handler, the call
    is made once, with the table of the transactions, and one toast is
    shown: the count of the transactions when nothing was thrown;
    otherwise the destructive one, carrying the message of the error that
    the call rejected with or that the response held, after that error was
    logged.  [onImport] is not called. *)
Theorem handleExport_protocol (l : list (Transaction num)) (outcome : InvokeOutcome)
  (before : bool) :
  let trace :=
    handleExport toLocaleDateString numberToString getCategoryName l outcome in
  isExportingAfter trace before = false
  /\ head trace = Some (SetIsExporting true)
  /\ invocations trace = [WriteBody SPREADSHEET_ID SHEET_RANGE (exportValues toLocaleDateString numberToString getCategoryName l)]
  /\ imported trace = []
  /\ (exists t, toasts trace = [t]
        /\ (destructive t = true <-> caught outcome <> None)
        /\ (caught outcome = None -> t = ExportDone (length l)))
  /\ (forall thrown, caught outcome = Some thrown ->
        toasts trace = [ExportFailed (errorMessage thrown)]
        /\ logged trace = [thrown]).
Proof.
  cbv zeta. unfold handleExport.
  destruct (caught outcome) as [thrown|] eqn:E; cbn.
  - do 4 (split; [reflexivity |]). split.
    + eexists. split; [reflexivity |]. split; [| discriminate].
      split; [discriminate | reflexivity].
    + intros thrown' [= <-]. split; reflexivity.
  - do 4 (split; [reflexivity |]). split.
    + eexists. split; [reflexivity |]. split; [| reflexivity].
      split; [discriminate | congruence].
    + discriminate.
Qed.

(** X12: the import always ends idle, reports and imports nothing.
    However the awaited call ends, [isImporting] is false after the
    handler and one toast is shown: when nothing was thrown, the number of
    rows received, 0 when the response has no data or the data no values;
    otherwise the destructive one with the message of the error, after
    that error was logged.  The rows received are not passed to
    [onImport]: it is never called. *)
Theorem handleImport_protocol (outcome : InvokeOutcome) (before : bool) :
  let trace := handleImport outcome in
  isImportingAfter trace before = false
  /\ invocations trace = [ReadBody SPREADSHEET_ID SHEET_RANGE]
  /\ imported trace = []
  /\ (exists t, toasts trace = [t]
        /\ (destructive t = true <-> caught outcome <> None)
        /\ (caught outcome = None -> t = ImportDone (receivedRows outcome)))
  /\ (forall thrown, caught outcome = Some thrown ->
        toasts trace = [ImportFailed (errorMessage thrown)]
        /\ logged trace = [thrown])
  /\ (forall err, receivedRows (Resolves (mkResponse None err)) = 0%nat
                  /\ receivedRows (Resolves (mkResponse (Some None) err)) = 0%nat)
  /\ (forall rows err,
        receivedRows (Resolves (mkResponse (Some (Some rows)) err)) = length rows).
Proof.
  cbv zeta. unfold handleImport.
  destruct (caught outcome) as [thrown|] eqn:E; cbn.
  - do 3 (split; [reflexivity |]). split; [| split; [| split]].
    + eexists. split; [reflexivity |]. split; [| discriminate].
      split; [discriminate | reflexivity].
    + intros thrown' [= <-]. split; reflexivity.
    + intros err. split; reflexivity.
    + reflexivity.
  - do 3 (split; [reflexivity |]). split; [| split; [| split]].
    + eexists. split; [reflexivity |]. split; [| reflexivity].
      split; [discriminate | congruence].
    + discriminate.
    + intros err. split; reflexivity.
    + reflexivity.
Qed.

End Sheets.

(** ** The payout dialog *)

Section Payout.

Import PayoutDialog.

Context {num : Type}.

Variable parseFloat : string -> num.
Variable leZero : num -> bool.

Lemma orUndefined_not_empty (s : string) : orUndefined s <> Some "".
Proof. unfold orUndefined, JS.or. destruct s; simpl; congruence. Qed.

Lemma rejected_spec (f : Form.State) :
  rejected parseFloat leZero f = true
  <-> Form.amount f = "" \/ leZero (parseFloat (Form.amount f)) = true
      \/ Form.categoryId f = "".
Proof.
  unfold rejected.
  rewrite !orb_true_iff, !negb_true_iff.
  destruct (Form.amount f), (Form.categoryId f); simpl; split; intros H;
    repeat destruct H as [H | H]; try discriminate; auto.
Qed.

(** X13: a payout is recorded once, or not at all.  When the amount field
    is empty, or its number is at most 0, or no category is chosen, neither
    handler has any effect.  Otherwise each of the two, whatever the
    browser does with the share request, first adds one transaction, the
    one [buildTransaction] makes: an expense in the chosen category, whose
    optional fields are absent rather than empty; it shows one toast and
    leaves the dialog closed. *)
Theorem payout_recorded_once (browser : Browser) (f : Form.State) (before : bool) :
  let blocked :=
    Form.amount f = "" \/ leZero (parseFloat (Form.amount f)) = true
    \/ Form.categoryId f = "" in
  let tx := buildTransaction parseFloat f in
  let download := handleDownload parseFloat leZero f in
  let share := handleShare parseFloat leZero browser f in
  (blocked -> download = [] /\ share = [])
  /\ (~ blocked ->
      head download = Some (OnAddTransaction tx)
      /\ head share = Some (OnAddTransaction tx)
      /\ added download = [tx] /\ added share = [tx]
      /\ length (toasts download) = 1%nat /\ length (toasts share) = 1%nat
      /\ openAfter download before = false /\ openAfter share before = false)
  /\ type tx = Expense
  /\ category tx = Form.categoryId f
  /\ issuedTo tx <> Some "" /\ decisionNumber tx <> Some ""
  /\ amountInWords tx <> Some "" /\ cashierName tx <> Some "".
Proof.
  cbv zeta. unfold handleDownload, handleShare.
  split; [| split].
  - intros H. apply rejected_spec in H. now rewrite H.
  - intros H. destruct (rejected parseFloat leZero f) eqn:E.
    + exfalso. apply H. now apply rejected_spec.
    + destruct (canShare browser); cbn; repeat split; reflexivity.
  - cbn. repeat split; apply orUndefined_not_empty.
Qed.

(** X14: sharing and its fallback.  When the form is accepted, the share
    handler hands the file to the share sheet and leaves the clipboard
    alone if the browser can share files; if not, it copies the summary
    and shares nothing.  Its toast tells a failure from a success of the
    step taken, and the transaction is added and the dialog closed also
    when that step fails. *)
Theorem handleShare_paths (browser : Browser) (f : Form.State) (before : bool) :
  let tx := buildTransaction parseFloat f in
  let trace := handleShare parseFloat leZero browser f in
  rejected parseFloat leZero f = false ->
  (if canShare browser
   then shared trace = [tx] /\ copied trace = []
        /\ toasts trace = [if shareResolves browser then PayoutShared
                           else PayoutSharedUnknown]
   else shared trace = [] /\ copied trace = [tx]
        /\ toasts trace = [if clipboardResolves browser then PayoutSharedCopied
                           else PayoutSharedUnknown])
  /\ added trace = [tx]
  /\ openAfter trace before = false
  /\ last trace = Some (SetOpen false).
Proof.
  cbv zeta. intros E. unfold handleShare. rewrite E.
  destruct (canShare browser); cbn; repeat split; reflexivity.
Qed.

End Payout.

(** ** Instances of the further properties *)

Lemma time_ranges_nested_witness :
  validDate Examples.midMarch2024
  /\ Examples.atMonthStart
     ∈ filteredElements Examples.propsSales "last3Months" "all" Examples.midMarch2024
         (Examples.storeOf [Examples.older; Examples.atMonthStart]).
Proof.
  assert (H : validDate Examples.midMarch2024)
    by (unfold validDate, msPerDay; cbn; lia).
  split; [exact H |].
  apply (proj1 (time_ranges_nested Examples.propsSales "all" Examples.midMarch2024
                  (Examples.storeOf [Examples.older; Examples.atMonthStart])
                  Examples.atMonthStart H)).
  replace (filteredElements Examples.propsSales "thisMonth" "all" Examples.midMarch2024
             (Examples.storeOf [Examples.older; Examples.atMonthStart]))
    with [Examples.atMonthStart] by (vm_compute; reflexivity).
  left.
Defined.

Lemma lastMonth_thisMonth_adjacent_witness :
  validDate Examples.midMarch2024
  /\ getTime (endOfMonth (subMonths Examples.midMarch2024 1)) + 1
     = getTime (startOfMonth Examples.midMarch2024).
Proof.
  assert (H : validDate Examples.midMarch2024)
    by (unfold validDate, msPerDay; cbn; lia).
  split; [exact H |].
  exact (proj1 (lastMonth_thisMonth_adjacent Examples.propsSales "all"
                  Examples.midMarch2024 (Examples.storeOf [Examples.older])
                  Examples.older H)).
Defined.

Lemma commit_sends_trimmed_label_witness :
  CallUpdateTransaction "t1" (Some "Sales")
  ∈ fst (commit Examples.propsSales Examples.older MoreExamples.draftSales)
  /\ JS.trim "Sales" = "Sales"
  /\ allWhiteSpace " Sales " = false.
Proof.
  assert (H : CallUpdateTransaction "t1" (Some "Sales")
              ∈ fst (commit Examples.propsSales Examples.older MoreExamples.draftSales))
    by left.
  split; [exact H |].
  pose proof (commit_sends_trimmed_label Examples.propsSales Examples.older
                MoreExamples.draftSales _ H) as (_ & _ & Htrim & _ & _ & Hnot).
  split; [exact Htrim | exact Hnot].
Defined.

Lemma committed_label_selectable_witness :
  let h := Examples.storeOf [Examples.older; Examples.salesOverride] in
  trimmedOrUndefined " Sales " = Some "Sales"
  /\ "Sales" ∈ availableDepartments Examples.propsDangling h.
Proof.
  cbv zeta. split; [reflexivity |].
  assert (Hin : Examples.salesOverride
                ∈ elementsOf (Examples.storeOf [Examples.older; Examples.salesOverride])
                    (transactions Examples.propsDangling))
    by (rewrite elementsOf_storeOf; right; left).
  exact (proj1 (committed_label_selectable Examples.propsDangling " Sales " "Sales"
                  (Examples.storeOf [Examples.older; Examples.salesOverride])
                  Examples.salesOverride Hin eq_refl eq_refl)).
Defined.

Lemma availableDepartments_after_filtering_witness :
  let h := Examples.storeOf [Examples.older; Examples.salesOverride] in
  transactions Examples.propsSales ∈ dom h
  /\ availableDepartments Examples.propsSales
       (storeAfter (filteredTransactions Examples.propsSales "all" "all"
                      Examples.midMarch2024) h)
     = availableDepartments Examples.propsSales h.
Proof.
  cbv zeta.
  assert (Hin : transactions Examples.propsSales
                ∈ dom (Examples.storeOf [Examples.older; Examples.salesOverride])).
  { apply elem_of_dom. exists [Examples.older; Examples.salesOverride].
    apply lookup_singleton_eq. }
  split; [exact Hin |].
  exact (availableDepartments_after_filtering Examples.propsSales "all" "all"
           Examples.midMarch2024 _ Hin).
Defined.


Lemma totals_nonnegative_witness :
  Forall (fun t : Transaction Z => 0 <= amount t) [Examples.older; Examples.newer]
  /\ 0 <= income (mkBucket 100 40) /\ 0 <= expense (mkBucket 100 40).
Proof.
  assert (H : Forall (fun t : Transaction Z => 0 <= amount t)
                [Examples.older; Examples.newer])
    by (repeat constructor; simpl; lia).
  split; [exact H |].
  pose proof (totals_nonnegative [Examples.older; Examples.newer] "PLN"
                (mkBucket 100 40) H eq_refl) as (H1 & H2 & _).
  split; [exact H1 | exact H2].
Defined.

Lemma single_editing_row_witness :
  NoDup (map id [Examples.older; Examples.newer])
  /\ List.filter
       (isEditingRow (startEdit Examples.propsSales Examples.newer initialEditor))
       [Examples.older; Examples.newer]
     = [Examples.newer].
Proof.
  assert (H : NoDup (map id [Examples.older; Examples.newer])).
  { simpl. apply NoDup_cons. split; [| apply NoDup_singleton].
    intros Hin. apply list_elem_of_singleton in Hin. discriminate Hin. }
  split; [exact H |].
  apply (proj1 (proj2 (single_editing_row Examples.propsSales Examples.newer
                         initialEditor [Examples.older; Examples.newer] H))).
  right. left.
Defined.

Lemma handleShare_paths_witness :
  PayoutDialog.rejected MoreExamples.sampleParse MoreExamples.sampleLeZero
    MoreExamples.sampleForm = false
  /\ PayoutDialog.copied
       (PayoutDialog.handleShare MoreExamples.sampleParse MoreExamples.sampleLeZero
          MoreExamples.clipboardOnly MoreExamples.sampleForm)
     = [PayoutDialog.buildTransaction MoreExamples.sampleParse MoreExamples.sampleForm].
Proof.
  split; [reflexivity |].
  exact (proj1 (proj2 (proj1 (handleShare_paths MoreExamples.sampleParse
                                MoreExamples.sampleLeZero MoreExamples.clipboardOnly
                                MoreExamples.sampleForm true eq_refl)))).
Defined.

(** ** Confirming an edit, and the rows shown *)

Section EditAndRows.

Context {num : Type} {numOps : Number num}.

Implicit Types (h : Store num) (t : Transaction num).

Variable props : StatisticsTableProps.

(** X15: confirming an untouched edit pins the inherited department.  For
    a transaction with no [departmentName] of its own whose category has a
    department that is not white space only, a click on the department
    cell followed at once by [commit] calls the transaction update, when
    it is supplied, with that department, trimmed, as the transaction's
    own [departmentName]; the category update is called only if the flag
    was already set. *)
Theorem untouched_edit_pins_department (x : Transaction num) (st : EditorState)
  (d : string) :
  updateTransaction props = true ->
  departmentName x = None ->
  categoryDepartment props (category x) = Some d ->
  JS.trim d <> "" ->
  fst (commit props x (startEdit props x st))
  = CallUpdateTransaction (id x) (Some (JS.trim d))
    :: (if applyToCategory st && updateCategory props
        then [CallUpdateCategory (category x) (getCategoryName props (category x))
                (Some (JS.trim d))]
        else []).
Proof.
  intros Hut Hname Hcat Hne.
  rewrite commit_calls, Hut, startEdit_flag.
  destruct (startEdit_draft props x st) as [_ ->].
  assert (Heff : effectiveDepartment props x = Some d).
  { unfold effectiveDepartment, JS.or. rewrite Hname, Hcat. reflexivity. }
  rewrite Heff. change (default "" (Some d)) with d.
  assert (Hv : trimmedOrUndefined d = Some (JS.trim d))
    by (apply trimmedOrUndefined_Some; auto).
  rewrite Hv. reflexivity.
Qed.

(** X16: what the table shows.  The number of rows shown is the number of
    input transactions that pass the time test and the department test,
    never more than the input holds; and the row saying that there are no
    transactions is shown exactly when no input transaction passes both
    tests. *)
Theorem rows_shown (timeRange departmentFilter : string) (now : Date) h :
  let result := filteredElements props timeRange departmentFilter now h in
  let input := elementsOf h (transactions props) in
  let passes t :=
    withinRange timeRange now t && departmentAccepts props departmentFilter t in
  length result = length (List.filter passes input)
  /\ (length result <= length input)%nat
  /\ (showsNoTransactions result = true
      <-> forall t, t ∈ input -> passes t = false).
Proof.
  cbv zeta.
  assert (Hlen : length (filteredElements props timeRange departmentFilter now h)
                 = length (List.filter
                             (fun t => withinRange timeRange now t
                                       && departmentAccepts props departmentFilter t)
                             (elementsOf h (transactions props)))).
  { rewrite filteredTransactions_elements. unfold filteredSequence. cbv zeta.
    rewrite timeStage_filter. unfold departmentAccepts.
    destruct (departmentFilterActive departmentFilter).
    - rewrite filter_sortWith, filter_filter_and.
      apply Permutation_length, sortWith_Permutation.
    - rewrite (Permutation_length (sortWith_Permutation _ _)). f_equal.
      apply List.filter_ext. intros t. now rewrite andb_true_r. }
  split; [exact Hlen | split].
  - rewrite Hlen. apply List.filter_length_le.
  - unfold showsNoTransactions. rewrite Nat.eqb_eq, Hlen. split.
    + intros Hz t Ht.
      destruct (withinRange timeRange now t
                && departmentAccepts props departmentFilter t) eqn:E; [| reflexivity].
      apply length_zero_iff_nil in Hz.
      assert (Hin : t ∈ List.filter
                (fun t => withinRange timeRange now t
                          && departmentAccepts props departmentFilter t)
                (elementsOf h (transactions props)))
        by (apply filter_elem_of; auto).
      rewrite Hz in Hin. inversion Hin.
    + intros Hnone.
      destruct (List.filter _ (elementsOf h (transactions props))) as [|t l] eqn:E;
        [reflexivity |].
      assert (Hin : t ∈ List.filter
                (fun t => withinRange timeRange now t
                          && departmentAccepts props departmentFilter t)
                (elementsOf h (transactions props))) by (rewrite E; left).
      apply filter_elem_of in Hin. destruct Hin as [Hin Hp].
      rewrite (Hnone t Hin) in Hp. discriminate.
Qed.

End EditAndRows.

Lemma untouched_edit_pins_department_witness :
  updateTransaction Examples.propsSales = true
  /\ departmentName Examples.older = None
  /\ fst (commit Examples.propsSales Examples.older
            (startEdit Examples.propsSales Examples.older initialEditor))
     = [CallUpdateTransaction "t1" (Some "Sales")].
Proof.
  split; [reflexivity | split; [reflexivity |]].
  assert (Hne : JS.trim "Sales" <> "") by discriminate.
  exact (untouched_edit_pins_department Examples.propsSales Examples.older
           initialEditor "Sales" eq_refl eq_refl eq_refl Hne).
Defined.
